(** * Auto_dns_mapper: the instance-state DNS synchronizer

    A shallow embedding of the two variants of the Lambda handler,
    [src/auto_dns_mapping/app.py] and [src/hello_world/app.py], and the
    properties of the specification checked against them.

    Python [str] values are modelled as [string], each character being a code
    point in 0..255 (the Latin-1 part of Unicode, which [str.strip] and
    [str.lower] map into itself).  The AWS services are collaborators: an
    [AWS] record gives, for each request, either a response or the exception
    the client raises.  Every call issued and every line printed is appended,
    in order, to a trace. *)

From Stdlib Require Import String Ascii ZArith List Bool Arith Lia.
Import ListNotations.
Open Scope string_scope.

(** ** Python string operations *)

Module PyStr.

(** [str.isspace] on one code point below 256: TAB..CR, FS..US, space,
    NEL (0x85) and NBSP (0xA0). *)
Definition isspace (c : ascii) : bool :=
  let n := nat_of_ascii c in
  (((9 <=? n) && (n <=? 13)) || ((28 <=? n) && (n <=? 32))
   || (n =? 133) || (n =? 160))%nat.

Fixpoint lstrip (s : string) : string :=
  match s with
  | EmptyString => EmptyString
  | String c s' => if isspace c then lstrip s' else s
  end.

Fixpoint rstrip (s : string) : string :=
  match s with
  | EmptyString => EmptyString
  | String c s' =>
      match rstrip s' with
      | EmptyString => if isspace c then EmptyString else String c EmptyString
      | r => String c r
      end
  end.

(** [s.strip()]: whitespace removed at both ends. *)
Definition strip (s : string) : string := rstrip (lstrip s).

(** [str.lower] on one code point below 256: A..Z, and the Latin-1 capitals
    0xC0..0xDE except the multiplication sign 0xD7, move up by 32. *)
Definition lower_char (c : ascii) : ascii :=
  let n := nat_of_ascii c in
  if (((65 <=? n) && (n <=? 90))
      || ((192 <=? n) && (n <=? 222) && negb (n =? 215)))%nat
  then ascii_of_nat (n + 32) else c.

Fixpoint lower (s : string) : string :=
  match s with
  | EmptyString => EmptyString
  | String c s' => String (lower_char c) (lower s')
  end.

(** Truth value of a [str]: [not s] holds for the empty string only. *)
Definition truthy (s : string) : bool :=
  match s with EmptyString => false | String _ _ => true end.

(** [str(x)] inside an f-string for a value that is a [str] or [None]. *)
Definition format (x : option string) : string :=
  match x with Some s => s | None => "None" end.

Definition hex_digit (n : nat) : ascii :=
  if (n <? 10)%nat then ascii_of_nat (48 + n) else ascii_of_nat (87 + n).

(** One character of [json.dumps] output (ensure_ascii, the default):
    backslash and the double quote are escaped, the five short escapes are
    used, and everything else outside space..tilde becomes \u00XX. *)
Definition json_escape_char (c : ascii) : string :=
  let n := nat_of_ascii c in
  if (n =? 34)%nat then String "\" (String c EmptyString)
  else if (n =? 92)%nat then "\\"
  else if (n =? 8)%nat then "\b"
  else if (n =? 12)%nat then "\f"
  else if (n =? 10)%nat then "\n"
  else if (n =? 13)%nat then "\r"
  else if (n =? 9)%nat then "\t"
  else if ((32 <=? n) && (n <=? 126))%nat then String c EmptyString
  else "\u00" ++ String (hex_digit (n / 16))
                  (String (hex_digit (n mod 16)) EmptyString).

Fixpoint json_escape (s : string) : string :=
  match s with
  | EmptyString => EmptyString
  | String c s' => json_escape_char c ++ json_escape s'
  end.

Definition dquote : ascii := ascii_of_nat 34.

(** [json.dumps(s)] for a [str]. *)
Definition json_dumps (s : string) : string :=
  String dquote (json_escape s ++ String dquote EmptyString).

End PyStr.

(** ** Exceptions and outcomes *)

(** The exceptions the handler can meet; all derive from [Exception]. *)
Inductive exn : Type :=
| KeyError (key : string)
| IndexError
| TypeError
| ClientError (message : string).

Inductive outcome (A : Type) : Type :=
| Ok (a : A)
| Raise (e : exn).
Arguments Ok {A} a.
Arguments Raise {A} e.

(** ** Data exchanged with the collaborators *)

(** One element of an instance's ['Tags']. *)
Record tag : Type := mk_tag {
  tag_Key : string;
  tag_Value : string
}.

(** One element of ['Instances'] in a [describe_instances] response.
    ['PublicIpAddress'] and ['Tags'] are keys the service omits when the
    instance has none. *)
Record instance : Type := mk_instance {
  State_Name : string;
  PublicIpAddress : option string;
  Tags : option (list tag)
}.

Record reservation : Type := mk_reservation {
  Instances : list instance
}.

Record describe_instances_response : Type := mk_describe {
  Reservations : list reservation
}.

Record resource_record : Type := mk_rr {
  rr_Value : string
}.

(** A record set as [list_resource_record_sets] returns it.  An alias record
    set has neither ['TTL'] nor ['ResourceRecords']. *)
Record record_desc : Type := mk_record_desc {
  desc_Name : string;
  desc_Type : string;
  desc_TTL : option Z;
  desc_ResourceRecords : option (list resource_record)
}.

Record list_response : Type := mk_list_response {
  ResourceRecordSets : list record_desc
}.

(** The ['ResourceRecordSet'] of a change. *)
Record resource_record_set : Type := mk_rrs {
  rrs_Name : string;
  rrs_ResourceRecords : list resource_record;
  rrs_TTL : Z;
  rrs_Type : string
}.

Record change : Type := mk_change {
  Action : string;
  ResourceRecordSet : resource_record_set
}.

Record change_batch : Type := mk_batch {
  Comment : option string;
  Changes : list change
}.

Record change_response : Type := mk_change_response {
  ChangeInfo_Id : string;
  ChangeInfo_Status : string
}.

(** The Lambda event, as far as the handler reads it.  Where a dictionary
    is expected the handler may meet one, with or without the key it reads,
    or a value of another kind (None, a string, a list, a number), which
    cannot be subscripted with a string.  The value under ['instance-id'] is
    a str. *)
Inductive event_detail : Type :=
| detail_dict (instance_id : option string)
| detail_other.

Inductive event : Type :=
| event_dict (detail : option event_detail)
| event_other.

(** What [lambda_handler] returns. *)
Record handler_result : Type := mk_result {
  statusCode : Z;
  body : string
}.

(** ** The collaborators and the trace *)

(** The requests sent to AWS.  [HostedZoneId] is an [option] because the
    hello_world variant reads it with [os.environ.get], which gives [None]
    for an unset variable. *)
Inductive api_call : Type :=
| describe_instances (InstanceIds : list string)
| list_resource_record_sets
    (HostedZoneId : option string) (StartRecordName : string)
    (StartRecordType : string) (MaxItems : string)
| change_resource_record_sets
    (HostedZoneId : option string) (ChangeBatch : change_batch).

(** What [print] wrote. *)
Inductive printed : Type :=
| print_event (e : event)
| print_text (s : string)
| print_error (prefix : string) (e : exn)
| print_response (label : string) (r : change_response).

Inductive trace_item : Type :=
| Call (c : api_call)
| Print (p : printed).

Definition trace : Type := list trace_item.

(** The environment of one invocation.  Each client method is called at most
    once per invocation, so a function of the request describes it. *)
Record AWS : Type := mk_AWS {
  boto3_client : option string -> string -> option exn;
  ec2_describe_instances :
    list string -> outcome describe_instances_response;
  route53_list_resource_record_sets :
    option string -> string -> string -> string -> outcome list_response;
  route53_change_resource_record_sets :
    option string -> change_batch -> outcome change_response
}.

(** ** A state-and-exception monad for the method bodies *)

Section Monad.
Context {S : Type}.

Definition M (A : Type) : Type := S -> outcome A * S.

Definition ret {A} (a : A) : M A := fun s => (Ok a, s).

Definition bind {A B} (m : M A) (k : A -> M B) : M B :=
  fun s => match m s with
           | (Ok a, s') => k a s'
           | (Raise e, s') => (Raise e, s')
           end.

(** [try: body except Exception as e: handler e]. *)
Definition try_except {A} (body : M A) (handler : exn -> M A) : M A :=
  fun s => match body s with
           | (Ok a, s') => (Ok a, s')
           | (Raise e, s') => handler e s'
           end.

Definition get : M S := fun s => (Ok s, s).
Definition modify (f : S -> S) : M unit := fun s => (Ok tt, f s).

(** Lift a pure computation that may raise. *)
Definition lift {A} (o : outcome A) : M A := fun s => (o, s).
End Monad.
Arguments M S A : clear implicits.

Declare Scope py_scope.
Delimit Scope py_scope with py.
Notation "x <- m ;; k" := (bind m (fun x => k))
  (at level 61, m at next level, right associativity) : py_scope.
Notation "m ;;; k" := (bind m (fun _ => k))
  (at level 61, right associativity) : py_scope.

(** Python subscripting. *)
Definition getitem {A} (key : string) (field : option A) : outcome A :=
  match field with
  | Some a => Ok a
  | None => Raise (KeyError key)
  end.

Definition index0 {A} (l : list A) : outcome A :=
  match l with
  | a :: _ => Ok a
  | [] => Raise IndexError
  end.

(** [event['detail']]: KeyError without the key, TypeError on a value that
    is not a dictionary. *)
Definition event_getitem (ev : event) : outcome event_detail :=
  match ev with
  | event_dict detail => getitem "detail" detail
  | event_other => Raise TypeError
  end.

(** [detail['instance-id']], likewise. *)
Definition detail_getitem (d : event_detail) : outcome string :=
  match d with
  | detail_dict instance_id => getitem "instance-id" instance_id
  | detail_other => Raise TypeError
  end.

(** [event['detail']['instance-id']]. *)
Definition instance_id_of (ev : event) : outcome string :=
  match event_getitem ev with
  | Ok d => detail_getitem d
  | Raise e => Raise e
  end.

(** [d.get(key, default)]. *)
Definition dict_get {A} (field : option A) (default : A) : A :=
  match field with
  | Some a => a
  | None => default
  end.

(** [next((tag['Value'].strip().lower() for tag in tags
           if tag['Key'].strip().lower() == 'dns'), "")]. *)
Definition key_is_dns (t : tag) : bool :=
  String.eqb (PyStr.lower (PyStr.strip (tag_Key t))) "dns".

Fixpoint next_dns_value (tags : list tag) : string :=
  match tags with
  | [] => ""
  | t :: rest =>
      if key_is_dns t then PyStr.lower (PyStr.strip (tag_Value t))
      else next_dns_value rest
  end.

(** The state a method runs in: the object [self] and the trace so far. *)
Record state (O : Type) : Type := mk_state {
  self : O;
  out : trace
}.
Arguments mk_state {O} self out.
Arguments self {O} s.
Arguments out {O} s.

Section Effects.
Context {O : Type}.
Local Open Scope py_scope.

Definition emit (i : trace_item) : M (state O) unit :=
  modify (fun s => mk_state (self s) (out s ++ [i])%list).

Definition print (p : printed) : M (state O) unit := emit (Print p).

(** A client call: the request goes on the trace, then the service's
    answer is returned or raised. *)
Definition call {A} (c : api_call) (reply : outcome A) : M (state O) A :=
  emit (Call c) ;;; lift reply.

Definition update_self (f : O -> O) : M (state O) unit :=
  modify (fun s => mk_state (f (self s)) (out s)).

(** Run a method of [obj] from a caller that only owns the trace. *)
Definition with_self {A} (obj : O) (m : M (state O) A) : M trace A :=
  fun t => let (r, s) := m (mk_state obj t) in (r, out s).
End Effects.

Definition print_top (p : printed) : M trace unit :=
  modify (fun t => (t ++ [Print p])%list).

(** The dictionary [lambda_handler] returns. *)
Definition handler_dict (success : bool) : handler_result :=
  {| statusCode := if success then 200%Z else 500%Z;
     body := PyStr.json_dumps
               (if success then "Function executed" else "Function failed") |}.

(** ** src/auto_dns_mapping/app.py *)

Module auto_dns_mapping.
Local Open Scope py_scope.

(** The module's global variables, read with [os.environ[...]]. *)
Record config : Type := mk_config {
  DOMAIN_NAME : string;
  ROUTE53_ZONE_ID : string;
  AWS_PRIMARY_REGION : string
}.

Record IpToDNSMapper : Type := mk_mapper {
  _instance_id : string;
  _ipv4 : string;
  _dns_str : string;
  _dns_prefix : string
}.

Definition set_ipv4 (v : string) (o : IpToDNSMapper) : IpToDNSMapper :=
  mk_mapper (_instance_id o) v (_dns_str o) (_dns_prefix o).

Definition set_dns_str (v : string) (o : IpToDNSMapper) : IpToDNSMapper :=
  mk_mapper (_instance_id o) (_ipv4 o) v (_dns_prefix o).

Definition __init__ (aws : AWS) (cfg : config) (instance_id : string)
  : outcome IpToDNSMapper :=
  match boto3_client aws (Some (AWS_PRIMARY_REGION cfg)) "ec2" with
  | Some e => Raise e
  | None =>
      match boto3_client aws (Some (AWS_PRIMARY_REGION cfg)) "route53" with
      | Some e => Raise e
      | None => Ok (mk_mapper instance_id "" "" "autodns-")
      end
  end.

(** f'{self._dns_prefix}{self._dns_str}.{DOMAIN_NAME}' *)
Definition record_name (cfg : config) (o : IpToDNSMapper) : string :=
  _dns_prefix o ++ _dns_str o ++ "." ++ DOMAIN_NAME cfg.

Definition _delete_route53_record_set (aws : AWS) (cfg : config)
  : M (state IpToDNSMapper) bool :=
  try_except
    (s <- get ;;
     let zone := Some (ROUTE53_ZONE_ID cfg) in
     let start := record_name cfg (self s) in
     resp <- call (list_resource_record_sets zone start "A" "1")
               (route53_list_resource_record_sets aws zone start "A" "1") ;;
     record_desc <- lift (index0 (ResourceRecordSets resp)) ;;
     s <- get ;;
     if negb (String.eqb (desc_Name record_desc)
                (record_name cfg (self s) ++ "."))
     then
       print (print_text ("Record mismatch: " ++ desc_Name record_desc
                          ++ " != " ++ record_name cfg (self s) ++ ".")) ;;;
       ret false
     else
       records <- lift (getitem "ResourceRecords"
                          (desc_ResourceRecords record_desc)) ;;
       first <- lift (index0 records) ;;
       ttl <- lift (getitem "TTL" (desc_TTL record_desc)) ;;
       let batch :=
         {| Comment := None;
            Changes :=
              [ {| Action := "DELETE";
                   ResourceRecordSet :=
                     {| rrs_Name := desc_Name record_desc;
                        rrs_ResourceRecords :=
                          [ {| rr_Value := rr_Value first |} ];
                        rrs_TTL := ttl;
                        rrs_Type := desc_Type record_desc |} |} ] |} in
       delete_res <- call (change_resource_record_sets zone batch)
                       (route53_change_resource_record_sets aws zone batch) ;;
       print (print_response "Deleted record set" delete_res) ;;;
       ret true)
    (fun e => print (print_error "Error deleting record: " e) ;;; ret false).

Definition _create_route53_record_set (aws : AWS) (cfg : config)
  : M (state IpToDNSMapper) bool :=
  try_except
    (s <- get ;;
     let zone := Some (ROUTE53_ZONE_ID cfg) in
     let batch :=
       {| Comment :=
            Some ("DNS attached to instance " ++ _instance_id (self s));
          Changes :=
            [ {| Action := "UPSERT";
                 ResourceRecordSet :=
                   {| rrs_Name := record_name cfg (self s);
                      rrs_ResourceRecords :=
                        [ {| rr_Value := _ipv4 (self s) |} ];
                      rrs_TTL := 300;
                      rrs_Type := "A" |} |} ] |} in
     response <- call (change_resource_record_sets zone batch)
                   (route53_change_resource_record_sets aws zone batch) ;;
     print (print_response "Created/Updated record set" response) ;;;
     ret true)
    (fun e =>
       print (print_error "Error creating/updating record: " e) ;;;
       ret false).

Definition set_dns (aws : AWS) (cfg : config) : M (state IpToDNSMapper) bool :=
  try_except
    (s <- get ;;
     resp <- call (describe_instances [_instance_id (self s)])
               (ec2_describe_instances aws [_instance_id (self s)]) ;;
     reservation0 <- lift (index0 (Reservations resp)) ;;
     ec2_described <- lift (index0 (Instances reservation0)) ;;
     let instance_state := State_Name ec2_described in
     tags <- lift (getitem "Tags" (Tags ec2_described)) ;;
     update_self (set_dns_str (next_dns_value tags)) ;;;
     s <- get ;;
     if negb (PyStr.truthy (_dns_str (self s)))
     then
       print (print_text "No DNS tag found for the instance.") ;;;
       ret false
     else if String.eqb instance_state "terminated"
     then _delete_route53_record_set aws cfg
     else
       (if String.eqb instance_state "running"
        then update_self
               (set_ipv4 (dict_get (PublicIpAddress ec2_described) ""))
        else if String.eqb instance_state "stopped"
        then update_self (set_ipv4 "127.0.0.1")
        else ret tt) ;;;
       _create_route53_record_set aws cfg)
    (fun e => print (print_error "Error in set_dns: " e) ;;; ret false).

Definition lambda_handler (aws : AWS) (cfg : config) (ev : event)
  : M trace handler_result :=
  print_top (print_event ev) ;;;
  detail <- lift (event_getitem ev) ;;
  instance_id <- lift (detail_getitem detail) ;;
  obj <- lift (__init__ aws cfg instance_id) ;;
  success <- with_self obj (set_dns aws cfg) ;;
  ret (handler_dict success).

End auto_dns_mapping.

(** ** src/hello_world/app.py *)

Module hello_world.
Local Open Scope py_scope.

(** The environment variables, read with [os.environ.get]: [None] when
    unset. *)
Record config : Type := mk_config {
  DOMAIN_NAME : option string;
  ROUTE53_ZONE_ID : option string
}.

Record IpToDNSMapper : Type := mk_mapper {
  _instance_id : string;
  _ipv4 : string;
  _dns_str : string
}.

Definition set_ipv4 (v : string) (o : IpToDNSMapper) : IpToDNSMapper :=
  mk_mapper (_instance_id o) v (_dns_str o).

Definition set_dns_str (v : string) (o : IpToDNSMapper) : IpToDNSMapper :=
  mk_mapper (_instance_id o) (_ipv4 o) v.

Definition __init__ (aws : AWS) (instance_id : string)
  : outcome IpToDNSMapper :=
  match boto3_client aws None "ec2" with
  | Some e => Raise e
  | None =>
      match boto3_client aws None "route53" with
      | Some e => Raise e
      | None => Ok (mk_mapper instance_id "" "")
      end
  end.

(** f'{self._dns_str}.{DOMAIN_NAME}' *)
Definition record_name (cfg : config) (o : IpToDNSMapper) : string :=
  _dns_str o ++ "." ++ PyStr.format (DOMAIN_NAME cfg).

Definition _delete_route53_record_set (aws : AWS) (cfg : config)
  : M (state IpToDNSMapper) bool :=
  try_except
    (s <- get ;;
     let zone := ROUTE53_ZONE_ID cfg in
     let start := record_name cfg (self s) in
     resp <- call (list_resource_record_sets zone start "A" "1")
               (route53_list_resource_record_sets aws zone start "A" "1") ;;
     record_desc <- lift (index0 (ResourceRecordSets resp)) ;;
     s <- get ;;
     if negb (String.eqb (desc_Name record_desc)
                (record_name cfg (self s) ++ "."))
     then
       print (print_text ("Record mismatch: " ++ desc_Name record_desc
                          ++ " != " ++ record_name cfg (self s) ++ ".")) ;;;
       ret false
     else
       records <- lift (getitem "ResourceRecords"
                          (desc_ResourceRecords record_desc)) ;;
       first <- lift (index0 records) ;;
       ttl <- lift (getitem "TTL" (desc_TTL record_desc)) ;;
       let batch :=
         {| Comment := None;
            Changes :=
              [ {| Action := "DELETE";
                   ResourceRecordSet :=
                     {| rrs_Name := desc_Name record_desc;
                        rrs_ResourceRecords :=
                          [ {| rr_Value := rr_Value first |} ];
                        rrs_TTL := ttl;
                        rrs_Type := desc_Type record_desc |} |} ] |} in
       delete_res <- call (change_resource_record_sets zone batch)
                       (route53_change_resource_record_sets aws zone batch) ;;
       print (print_response "Deleted record set" delete_res) ;;;
       ret true)
    (fun e => print (print_error "Error deleting record: " e) ;;; ret false).

Definition _create_route53_record_set (aws : AWS) (cfg : config)
  : M (state IpToDNSMapper) bool :=
  try_except
    (s <- get ;;
     let zone := ROUTE53_ZONE_ID cfg in
     let batch :=
       {| Comment :=
            Some ("DNS attached to instance " ++ _instance_id (self s));
          Changes :=
            [ {| Action := "UPSERT";
                 ResourceRecordSet :=
                   {| rrs_Name := record_name cfg (self s);
                      rrs_ResourceRecords :=
                        [ {| rr_Value := _ipv4 (self s) |} ];
                      rrs_TTL := 300;
                      rrs_Type := "A" |} |} ] |} in
     response <- call (change_resource_record_sets zone batch)
                   (route53_change_resource_record_sets aws zone batch) ;;
     print (print_response "Created/Updated record set" response) ;;;
     ret true)
    (fun e =>
       print (print_error "Error creating/updating record: " e) ;;;
       ret false).

(** Unlike the other variant, ['Tags'] is read with [.get('Tags', [])] and
    there is no test of [self._dns_str] before the state is examined. *)
Definition set_dns (aws : AWS) (cfg : config) : M (state IpToDNSMapper) bool :=
  try_except
    (s <- get ;;
     resp <- call (describe_instances [_instance_id (self s)])
               (ec2_describe_instances aws [_instance_id (self s)]) ;;
     reservation0 <- lift (index0 (Reservations resp)) ;;
     ec2_described <- lift (index0 (Instances reservation0)) ;;
     let instance_state := State_Name ec2_described in
     update_self
       (set_dns_str (next_dns_value (dict_get (Tags ec2_described) []))) ;;;
     if String.eqb instance_state "terminated"
     then _delete_route53_record_set aws cfg
     else
       (if String.eqb instance_state "running"
        then update_self
               (set_ipv4 (dict_get (PublicIpAddress ec2_described) ""))
        else if String.eqb instance_state "stopped"
        then update_self (set_ipv4 "127.0.0.1")
        else ret tt) ;;;
       _create_route53_record_set aws cfg)
    (fun e => print (print_error "Error in set_dns: " e) ;;; ret false).

Definition lambda_handler (aws : AWS) (cfg : config) (ev : event)
  : M trace handler_result :=
  print_top (print_event ev) ;;;
  detail <- lift (event_getitem ev) ;;
  instance_id <- lift (detail_getitem detail) ;;
  obj <- lift (__init__ aws instance_id) ;;
  success <- with_self obj (set_dns aws cfg) ;;
  ret (handler_dict success).

End hello_world.

(** ** Observations on a trace *)

(** The requests of a trace, in the order they were issued. *)
Fixpoint api_calls (t : trace) : list api_call :=
  match t with
  | [] => []
  | Call c :: t' => c :: api_calls t'
  | Print _ :: t' => api_calls t'
  end.

Definition is_dns_call (c : api_call) : bool :=
  match c with
  | describe_instances _ => false
  | list_resource_record_sets _ _ _ _ => true
  | change_resource_record_sets _ _ => true
  end.

(** Every call made on the Route 53 client. *)
Definition dns_calls (t : trace) : list api_call :=
  filter is_dns_call (api_calls t).

(** The change batches submitted: the mutating calls. *)
Fixpoint dns_mutations (t : trace) : list change_batch :=
  match t with
  | [] => []
  | Call (change_resource_record_sets _ b) :: t' => b :: dns_mutations t'
  | _ :: t' => dns_mutations t'
  end.

(** All changes of the submitted batches. *)
Definition changes_submitted (t : trace) : list change :=
  flat_map Changes (dns_mutations t).

(** ['Reservations'][0]['Instances'][0] of the [describe_instances]
    answer: the instance snapshot [set_dns] works on. *)
Definition fetched (aws : AWS) (instance_id : string) : outcome instance :=
  match ec2_describe_instances aws [instance_id] with
  | Ok resp =>
      match index0 (Reservations resp) with
      | Ok reservation0 => index0 (Instances reservation0)
      | Raise e => Raise e
      end
  | Raise e => Raise e
  end.

(** The snapshot's tag set; an instance without ['Tags'] has none. *)
Definition tag_set (inst : instance) : list tag := dict_get (Tags inst) [].

(** A whole invocation of [set_dns] on a freshly constructed object, with an
    empty trace: what the specification calls [synchronize]. *)
Definition synchronize_auto (aws : AWS) (cfg : auto_dns_mapping.config)
    (instance_id : string)
  : outcome bool * state auto_dns_mapping.IpToDNSMapper :=
  auto_dns_mapping.set_dns aws cfg
    (mk_state (auto_dns_mapping.mk_mapper instance_id "" "" "autodns-") []).

Definition synchronize_hello (aws : AWS) (cfg : hello_world.config)
    (instance_id : string)
  : outcome bool * state hello_world.IpToDNSMapper :=
  hello_world.set_dns aws cfg
    (mk_state (hello_world.mk_mapper instance_id "" "") []).

(** The trace an invocation leaves. *)
Definition trace_of {O} (r : outcome bool * state O) : trace := out (snd r).

(** ** The specification's vocabulary *)

(** No tag of the list has a key that is 'dns' once trimmed and
    lower-cased. *)
Definition no_dns_tag (tags : list tag) : Prop :=
  Forall (fun t => key_is_dns t = false) tags.

(** [t] is the first tag of the list whose key is 'dns'. *)
Definition first_dns_tag (tags : list tag) (t : tag) : Prop :=
  exists pre post,
    tags = (pre ++ t :: post)%list /\ no_dns_tag pre /\ key_is_dns t = true.

(** The instance is not DNS-managed: no 'dns' tag, or the value of that tag
    is blank after trimming. *)
Definition dns_tag_absent_or_blank (tags : list tag) : Prop :=
  no_dns_tag tags \/
  exists t, first_dns_tag tags t /\ PyStr.strip (tag_Value t) = "".

(** The two results [lambda_handler] is specified to return. *)
Definition success_result : handler_result :=
  {| statusCode := 200; body := PyStr.json_dumps "Function executed" |}.

Definition failure_result : handler_result :=
  {| statusCode := 500; body := PyStr.json_dumps "Function failed" |}.

(** The change an upsert submits. *)
Definition upsert_change (name address : string) : change :=
  {| Action := "UPSERT";
     ResourceRecordSet :=
       {| rrs_Name := name;
          rrs_ResourceRecords := [ {| rr_Value := address |} ];
          rrs_TTL := 300;
          rrs_Type := "A" |} |}.

(** Upper- or lower-case variant of a letter given in lower case. *)
Definition same_letter (lower_case c : ascii) : Prop :=
  c = lower_case \/ c = ascii_of_nat (nat_of_ascii lower_case - 32).

(** [record_desc = list_resource_record_sets(...)['ResourceRecordSets'][0]]:
    the record set the deletion pre-check looks at. *)
Definition listed_first (aws : AWS) (zone : option string) (name : string)
  : outcome record_desc :=
  match route53_list_resource_record_sets aws zone name "A" "1" with
  | Ok resp => index0 (ResourceRecordSets resp)
  | Raise e => Raise e
  end.

(** A submitted batch agrees with the lifecycle state: one change, a DELETE
    for a terminated instance and an UPSERT for any other. *)
Definition mutation_fits_state (inst : instance) (b : change_batch) : Prop :=
  exists c,
    Changes b = [c] /\
    Action c = if String.eqb (State_Name inst) "terminated"
               then "DELETE" else "UPSERT".

(** The trace holds no mutating call, or exactly one and it agrees with the
    state of the fetched snapshot. *)
Definition at_most_one_mutation (aws : AWS) (instance_id : string) (t : trace)
  : Prop :=
  dns_mutations t = [] \/
  exists inst b,
    fetched aws instance_id = Ok inst /\ dns_mutations t = [b] /\
    mutation_fits_state inst b.

(** The record names and values of the changes, as submitted. *)
Definition names_submitted (t : trace) : list string :=
  map (fun c => rrs_Name (ResourceRecordSet c)) (changes_submitted t).

Definition values_submitted (t : trace) : list (list resource_record) :=
  map (fun c => rrs_ResourceRecords (ResourceRecordSet c))
    (changes_submitted t).

(** ** A sample environment *)

Definition example_cfg_auto : auto_dns_mapping.config :=
  auto_dns_mapping.mk_config "example.com" "Z123" "us-east-1".

Definition example_cfg_hello : hello_world.config :=
  hello_world.mk_config (Some "example.com") (Some "Z123").

(** An account with one instance [inst] and a zone whose list query answers
    with [records]; every change is accepted. *)
Definition example_aws (inst : instance) (records : list record_desc) : AWS :=
  {| boto3_client := fun _ _ => None;
     ec2_describe_instances :=
       fun _ => Ok (mk_describe [mk_reservation [inst]]);
     route53_list_resource_record_sets :=
       fun _ _ _ _ => Ok (mk_list_response records);
     route53_change_resource_record_sets :=
       fun _ _ => Ok (mk_change_response "/change/C1" "PENDING") |}.

(** Scenario A of the specification: running, tag dns=web1, address
    1.2.3.4. *)
Definition scenario_a_instance : instance :=
  mk_instance "running" (Some "1.2.3.4") (Some [mk_tag "dns" "web1"]).

(** Scenario B: stopped, tag value in mixed case with a trailing space. *)
Definition scenario_b_instance : instance :=
  mk_instance "stopped" None (Some [mk_tag "dns" "Web1 "]).

(** Scenario D: no tag has the key 'dns'. *)
Definition untagged_instance : instance :=
  mk_instance "running" (Some "1.2.3.4") (Some [mk_tag "Name" "web"]).

(** An instance that is still starting. *)
Definition pending_instance : instance :=
  mk_instance "pending" None (Some [mk_tag "dns" "web1"]).

(** Two tags with the key 'dns', after one without. *)
Definition twice_tagged : list tag :=
  [mk_tag "Name" "web"; mk_tag " DNS " " Web1 "; mk_tag "dns" "other"].

Definition example_event : event :=
  event_dict (Some (detail_dict (Some "i-0abc"))).

(** An event without the ['detail'] key. *)
Definition empty_event : event := event_dict None.

(** Record sets a zone may answer with. *)
Definition unrelated_record : record_desc :=
  mk_record_desc "web2.example.com." "A" (Some 60%Z) (Some [mk_rr "9.9.9.9"]).

Definition auto_record : record_desc :=
  mk_record_desc "autodns-web1.example.com." "A" (Some 300%Z)
    (Some [mk_rr "1.2.3.4"]).

Definition hello_record : record_desc :=
  mk_record_desc "web1.example.com." "A" (Some 300%Z) (Some [mk_rr "1.2.3.4"]).

Definition two_value_record : record_desc :=
  mk_record_desc "web1.example.com." "A" (Some 300%Z)
    (Some [mk_rr "1.2.3.4"; mk_rr "5.6.7.8"]).

(** A zone that answers the list query by name: the record of each variant
    under its own name. *)
Definition example_zone : AWS :=
  {| boto3_client := fun _ _ => None;
     ec2_describe_instances :=
       fun _ => Ok (mk_describe [mk_reservation [scenario_a_instance]]);
     route53_list_resource_record_sets :=
       fun _ name _ _ =>
         if String.eqb name "web1.example.com"
         then Ok (mk_list_response [hello_record])
         else Ok (mk_list_response [auto_record]);
     route53_change_resource_record_sets :=
       fun _ _ => Ok (mk_change_response "/change/C1" "PENDING") |}.

(** Objects whose [_dns_str] has been set to web1. *)
Definition auto_web1 : state auto_dns_mapping.IpToDNSMapper :=
  mk_state (auto_dns_mapping.mk_mapper "i-0abc" "" "web1" "autodns-") [].

Definition hello_web1 : state hello_world.IpToDNSMapper :=
  mk_state (hello_world.mk_mapper "i-0abc" "" "web1") [].

(** ** Further observations *)

(** The lines printed, in order. *)
Fixpoint printed_lines (t : trace) : list printed :=
  match t with
  | [] => []
  | Print p :: t' => p :: printed_lines t'
  | Call _ :: t' => printed_lines t'
  end.

(** A printed line that reports an accepted change. *)
Definition reports_change (p : printed) : bool :=
  match p with
  | print_response _ _ => true
  | _ => false
  end.

(** An account whose describe call is refused. *)
Definition unreachable_ec2 : AWS :=
  {| boto3_client := fun _ _ => None;
     ec2_describe_instances :=
       fun _ => Raise (ClientError "InvalidInstanceID.NotFound");
     route53_list_resource_record_sets :=
       fun _ _ _ _ => Ok (mk_list_response []);
     route53_change_resource_record_sets :=
       fun _ _ => Ok (mk_change_response "/change/C1" "PENDING") |}.

(** An alias record set: no ['TTL'], no ['ResourceRecords']. *)
Definition alias_auto_record : record_desc :=
  mk_record_desc "autodns-web1.example.com." "A" None None.

Definition alias_hello_record : record_desc :=
  mk_record_desc "web1.example.com." "A" None None.

(** A zone that answers with the alias record of each variant. *)
Definition alias_zone : AWS :=
  {| boto3_client := fun _ _ => None;
     ec2_describe_instances :=
       fun _ => Ok (mk_describe [mk_reservation [scenario_a_instance]]);
     route53_list_resource_record_sets :=
       fun _ name _ _ =>
         if String.eqb name "web1.example.com"
         then Ok (mk_list_response [alias_hello_record])
         else Ok (mk_list_response [alias_auto_record]);
     route53_change_resource_record_sets :=
       fun _ _ => Ok (mk_change_response "/change/C1" "PENDING") |}.

(** A running instance that has no public address yet. *)
Definition no_address_instance : instance :=
  mk_instance "running" None (Some [mk_tag "dns" "web1"]).

(** An event whose ['detail'] lacks ['instance-id']. *)
Definition detail_only_event : event := event_dict (Some (detail_dict None)).

(** An event whose ['detail'] is not a dictionary. *)
Definition null_detail_event : event := event_dict (Some detail_other).

(** An account in which the client of the default region cannot be
    constructed, while those of a named region can. *)
Definition no_default_region : AWS :=
  {| boto3_client :=
       fun region _ =>
         match region with
         | Some _ => None
         | None => Some (ClientError "NoRegionError")
         end;
     ec2_describe_instances :=
       fun _ => Ok (mk_describe [mk_reservation [scenario_a_instance]]);
     route53_list_resource_record_sets :=
       fun _ _ _ _ => Ok (mk_list_response []);
     route53_change_resource_record_sets :=
       fun _ _ => Ok (mk_change_response "/change/C1" "PENDING") |}.

(** A terminated instance with tag dns=web1. *)
Definition terminated_instance : instance :=
  mk_instance "terminated" None (Some [mk_tag "dns" "web1"]).

(** The calls one invocation may send, in order: the describe call for
    [instance_id], then at most one list query (type A, one item) and at most
    one change, both on [zone]. *)
Definition follows_protocol (zone : option string) (instance_id : string)
    (calls : list api_call) : Prop :=
  calls = [describe_instances [instance_id]] \/
  (exists b,
      calls = [describe_instances [instance_id];
               change_resource_record_sets zone b]) \/
  (exists name,
      calls = [describe_instances [instance_id];
               list_resource_record_sets zone name "A" "1"]) \/
  (exists name b,
      calls = [describe_instances [instance_id];
               list_resource_record_sets zone name "A" "1";
               change_resource_record_sets zone b]).

(** The record set lacks a field the DELETE is built from. *)
Definition lacks_delete_fields (d : record_desc) : Prop :=
  desc_ResourceRecords d = None \/ desc_ResourceRecords d = Some [] \/
  desc_TTL d = None.

(** A batch as the two methods build them: one change with one resource
    value; an UPSERT has TTL 300, type A and a comment naming the instance,
    a DELETE has no comment. *)
Definition well_shaped_batch (instance_id : string) (b : change_batch)
  : Prop :=
  exists c,
    Changes b = [c] /\
    length (rrs_ResourceRecords (ResourceRecordSet c)) = 1%nat /\
    ((Action c = "UPSERT" /\
      Comment b = Some ("DNS attached to instance " ++ instance_id) /\
      rrs_TTL (ResourceRecordSet c) = 300%Z /\
      rrs_Type (ResourceRecordSet c) = "A") \/
     (Action c = "DELETE" /\ Comment b = None)).

(** The string is empty or begins with a character that is not
    whitespace. *)
Definition starts_clean (s : string) : Prop :=
  match s with
  | EmptyString => True
  | String c _ => PyStr.isspace c = false
  end.

(** * Proofs *)

(** ** Facts about the string operations *)

Lemma lower_char_inv (c : ascii) (l : ascii) :
  In l ["d"; "n"; "s"]%char ->
  PyStr.lower_char c = l -> same_letter l c.
Proof.
  intros Hl H.
  destruct c as [[] [] [] [] [] [] [] []];
    simpl in Hl; destruct Hl as [<- | [<- | [<- | []]]];
    vm_compute in H; try discriminate H;
    unfold same_letter; vm_compute; auto.
Qed.

Lemma lower_char_same_letter (l c : ascii) :
  In l ["d"; "n"; "s"]%char -> same_letter l c -> PyStr.lower_char c = l.
Proof.
  intros Hl [-> | ->];
    simpl in Hl; destruct Hl as [<- | [<- | [<- | []]]]; reflexivity.
Qed.

Lemma lower_eq_dns (s : string) :
  PyStr.lower s = "dns" <->
  exists a b c,
    s = String a (String b (String c "")) /\
    same_letter "d" a /\ same_letter "n" b /\ same_letter "s" c.
Proof.
  split.
  - destruct s as [| a [| b [| c [| ? ?]]]]; simpl; try discriminate.
    intros H. injection H as Ha Hb Hc.
    exists a, b, c. repeat split;
      apply lower_char_inv; simpl; auto.
  - intros (a & b & c & -> & Ha & Hb & Hc). simpl.
    rewrite (lower_char_same_letter "d" a), (lower_char_same_letter "n" b),
      (lower_char_same_letter "s" c); simpl; auto.
Qed.

Lemma lower_empty (s : string) : PyStr.lower s = "" <-> s = "".
Proof. destruct s; simpl; split; congruence. Qed.

Lemma truthy_false (s : string) : PyStr.truthy s = false <-> s = "".
Proof. destruct s; simpl; split; congruence. Qed.

Lemma truthy_true (s : string) : PyStr.truthy s = true <-> s <> "".
Proof. destruct s; simpl; split; congruence. Qed.

(** ** The tag scan *)

Lemma next_dns_value_no_dns_tag (tags : list tag) :
  no_dns_tag tags -> next_dns_value tags = "".
Proof.
  induction 1 as [| t rest Ht _ IH]; simpl.
  - reflexivity.
  - rewrite Ht. exact IH.
Qed.

Lemma next_dns_value_skip (pre rest : list tag) :
  no_dns_tag pre -> next_dns_value (pre ++ rest) = next_dns_value rest.
Proof.
  induction 1 as [| t pre Ht _ IH]; simpl.
  - reflexivity.
  - rewrite Ht. exact IH.
Qed.

Lemma next_dns_value_first (tags : list tag) (t : tag) :
  first_dns_tag tags t ->
  next_dns_value tags = PyStr.lower (PyStr.strip (tag_Value t)).
Proof.
  intros (pre & post & -> & Hpre & Ht).
  rewrite next_dns_value_skip by exact Hpre.
  simpl. rewrite Ht. reflexivity.
Qed.

(** Either no tag has the key, or there is a first one. *)
Lemma dns_tag_cases (tags : list tag) :
  no_dns_tag tags \/ exists t, first_dns_tag tags t.
Proof.
  induction tags as [| t rest IH].
  - left. constructor.
  - destruct (key_is_dns t) eqn:Ht.
    + right. exists t, [], rest. repeat split; [constructor | exact Ht].
    + destruct IH as [Hno | (u & pre & post & -> & Hpre & Hu)].
      * left. constructor; assumption.
      * right. exists u, (t :: pre), post.
        repeat split; [constructor; assumption | exact Hu].
Qed.

Lemma first_dns_tag_unique (tags : list tag) (t u : tag) :
  first_dns_tag tags t -> first_dns_tag tags u -> t = u.
Proof.
  intros (pre & post & -> & Hpre & Ht) (pre' & post' & E & Hpre' & Hu).
  revert pre' E Hpre'. induction Hpre as [| x pre Hx _ IH]; intros pre' E Hpre'.
  - destruct pre' as [| y pre']; simpl in E.
    + congruence.
    + injection E as -> _. inversion Hpre'; congruence.
  - destruct pre' as [| y pre']; simpl in E.
    + injection E as -> _. congruence.
    + injection E as -> E. inversion Hpre'; subst. eapply IH; eauto.
Qed.

(** The scan yields the empty string exactly when the instance is not
    DNS-managed in the specification's sense. *)
Lemma next_dns_value_blank (tags : list tag) :
  next_dns_value tags = "" <-> dns_tag_absent_or_blank tags.
Proof.
  split.
  - intros H. destruct (dns_tag_cases tags) as [Hno | [t Ht]].
    + left. exact Hno.
    + right. exists t. split; [exact Ht |].
      rewrite (next_dns_value_first _ _ Ht) in H.
      apply lower_empty. exact H.
  - intros [Hno | (t & Ht & Hblank)].
    + apply next_dns_value_no_dns_tag. exact Hno.
    + rewrite (next_dns_value_first _ _ Ht), Hblank. reflexivity.
Qed.

(** ** Running the methods *)

Lemma fetched_ok (aws : AWS) (id : string) (inst : instance) :
  fetched aws id = Ok inst ->
  exists resp r rs rest,
    ec2_describe_instances aws [id] = Ok resp /\
    Reservations resp = r :: rs /\ Instances r = inst :: rest.
Proof.
  unfold fetched, index0. intros H.
  destruct (ec2_describe_instances aws [id]) as [resp |]; [| discriminate].
  destruct (Reservations resp) as [| r rs] eqn:Hr; [discriminate |].
  destruct (Instances r) as [| i rest] eqn:Hi; [discriminate |].
  injection H as ->. exists resp, r, rs, rest. auto.
Qed.

(** Unfold the methods and the monad, then compute; the string functions
    stay folded. *)
Ltac exec :=
  unfold synchronize_auto, synchronize_hello, trace_of,
    auto_dns_mapping.set_dns, hello_world.set_dns,
    auto_dns_mapping._delete_route53_record_set,
    hello_world._delete_route53_record_set,
    auto_dns_mapping._create_route53_record_set,
    hello_world._create_route53_record_set,
    try_except, bind, call, emit, print, modify, lift, get, ret, update_self;
  cbn -[append next_dns_value PyStr.truthy].

(** Run [set_dns] up to the point where the snapshot has been fetched. *)
Ltac fetch H :=
  let resp := fresh "resp" in
  let r := fresh "r" in
  let E1 := fresh "Hdescribe" in
  let E2 := fresh "Hreservations" in
  let E3 := fresh "Hinstances" in
  destruct (fetched_ok _ _ _ H) as (resp & r & ? & ? & E1 & E2 & E3);
  exec; rewrite E1; exec; rewrite E2; exec; rewrite E3; exec.

Lemma dns_mutations_app (t1 t2 : trace) :
  dns_mutations (t1 ++ t2)%list = (dns_mutations t1 ++ dns_mutations t2)%list.
Proof.
  induction t1 as [| [[] |] t1 IH]; simpl; rewrite ?IH; reflexivity.
Qed.

Lemma changes_submitted_app (t1 t2 : trace) :
  changes_submitted (t1 ++ t2)%list
  = (changes_submitted t1 ++ changes_submitted t2)%list.
Proof.
  unfold changes_submitted. rewrite dns_mutations_app. apply flat_map_app.
Qed.

Lemma tag_set_nonblank (inst : instance) :
  next_dns_value (tag_set inst) <> "" ->
  exists tags,
    Tags inst = Some tags /\ PyStr.truthy (next_dns_value tags) = true.
Proof.
  unfold tag_set. destruct (Tags inst) as [tags |]; cbn; intros H.
  - exists tags. split; [reflexivity | now apply truthy_true].
  - now elim H.
Qed.

Section Stopped.
Variables (aws : AWS) (id : string) (inst : instance).
Hypothesis Hfetched : fetched aws id = Ok inst.
Hypothesis Hstate : State_Name inst = "stopped".
Hypothesis Htag : next_dns_value (tag_set inst) <> "".

Lemma stopped_upsert_auto (cfg : auto_dns_mapping.config) :
  dns_mutations (trace_of (synchronize_auto aws cfg id))
  = [ {| Comment := Some ("DNS attached to instance " ++ id);
         Changes :=
           [ upsert_change
               ("autodns-" ++ next_dns_value (tag_set inst) ++ "."
                ++ auto_dns_mapping.DOMAIN_NAME cfg)
               "127.0.0.1" ] |} ].
Proof.
  destruct (tag_set_nonblank inst Htag) as (tags & Htags & Htruthy).
  unfold tag_set. fetch Hfetched. rewrite Htags. exec.
  rewrite Htruthy, Hstate. exec.
  destruct (route53_change_resource_record_sets aws _ _); reflexivity.
Qed.

Lemma stopped_upsert_hello (cfg : hello_world.config) :
  dns_mutations (trace_of (synchronize_hello aws cfg id))
  = [ {| Comment := Some ("DNS attached to instance " ++ id);
         Changes :=
           [ upsert_change
               (next_dns_value (tag_set inst) ++ "."
                ++ PyStr.format (hello_world.DOMAIN_NAME cfg))
               "127.0.0.1" ] |} ].
Proof.
  unfold tag_set. fetch Hfetched. rewrite Hstate. exec.
  destruct (route53_change_resource_record_sets aws _ _); reflexivity.
Qed.
End Stopped.

Lemma listed_first_ok aws zone name d :
  listed_first aws zone name = Ok d ->
  exists resp rest,
    route53_list_resource_record_sets aws zone name "A" "1" = Ok resp /\
    ResourceRecordSets resp = d :: rest.
Proof.
  unfold listed_first, index0. intros H.
  destruct (route53_list_resource_record_sets aws zone name "A" "1")
    as [resp |]; [| discriminate].
  destruct (ResourceRecordSets resp) as [| d' rest] eqn:E; [discriminate |].
  injection H as ->. eauto.
Qed.

Lemma eqb_neq_false (a b : string) : a <> b -> String.eqb a b = false.
Proof. apply String.eqb_neq. Qed.

(** ** Deletion *)

Lemma delete_mismatch_auto aws cfg s d :
  listed_first aws (Some (auto_dns_mapping.ROUTE53_ZONE_ID cfg))
    (auto_dns_mapping.record_name cfg (self s)) = Ok d ->
  desc_Name d <> auto_dns_mapping.record_name cfg (self s) ++ "." ->
  fst (auto_dns_mapping._delete_route53_record_set aws cfg s) = Ok false /\
  dns_mutations
    (out (snd (auto_dns_mapping._delete_route53_record_set aws cfg s)))
  = dns_mutations (out s).
Proof.
  intros Hl Hn.
  destruct (listed_first_ok _ _ _ _ Hl) as (resp & rest & E1 & E2).
  exec. rewrite E1. exec. rewrite E2. exec.
  rewrite (eqb_neq_false _ _ Hn). exec.
  rewrite !dns_mutations_app. cbn. rewrite !app_nil_r. auto.
Qed.

Lemma delete_mismatch_hello aws cfg s d :
  listed_first aws (hello_world.ROUTE53_ZONE_ID cfg)
    (hello_world.record_name cfg (self s)) = Ok d ->
  desc_Name d <> hello_world.record_name cfg (self s) ++ "." ->
  fst (hello_world._delete_route53_record_set aws cfg s) = Ok false /\
  dns_mutations
    (out (snd (hello_world._delete_route53_record_set aws cfg s)))
  = dns_mutations (out s).
Proof.
  intros Hl Hn.
  destruct (listed_first_ok _ _ _ _ Hl) as (resp & rest & E1 & E2).
  exec. rewrite E1. exec. rewrite E2. exec.
  rewrite (eqb_neq_false _ _ Hn). exec.
  rewrite !dns_mutations_app. cbn. rewrite !app_nil_r. auto.
Qed.

Lemma delete_match_auto aws cfg s d first others ttl :
  listed_first aws (Some (auto_dns_mapping.ROUTE53_ZONE_ID cfg))
    (auto_dns_mapping.record_name cfg (self s)) = Ok d ->
  desc_Name d = auto_dns_mapping.record_name cfg (self s) ++ "." ->
  desc_ResourceRecords d = Some (first :: others) ->
  desc_TTL d = Some ttl ->
  dns_mutations
    (out (snd (auto_dns_mapping._delete_route53_record_set aws cfg s)))
  = (dns_mutations (out s) ++
    [ {| Comment := None;
         Changes := [ {| Action := "DELETE";
                         ResourceRecordSet :=
                           {| rrs_Name := desc_Name d;
                              rrs_ResourceRecords := [first];
                              rrs_TTL := ttl;
                              rrs_Type := desc_Type d |} |} ] |} ])%list.
Proof.
  intros Hl Hn Hr Ht.
  destruct (listed_first_ok _ _ _ _ Hl) as (resp & rest & E1 & E2).
  exec. rewrite E1. exec. rewrite E2. exec.
  rewrite Hn, String.eqb_refl. exec. rewrite Hr. exec. rewrite Ht. exec.
  destruct first as [v]. 
  destruct (route53_change_resource_record_sets aws _ _); exec;
    rewrite !dns_mutations_app; cbn; rewrite ?app_nil_r; rewrite <- ?Hn;
    reflexivity.
Qed.

Lemma delete_match_hello aws cfg s d first others ttl :
  listed_first aws (hello_world.ROUTE53_ZONE_ID cfg)
    (hello_world.record_name cfg (self s)) = Ok d ->
  desc_Name d = hello_world.record_name cfg (self s) ++ "." ->
  desc_ResourceRecords d = Some (first :: others) ->
  desc_TTL d = Some ttl ->
  dns_mutations
    (out (snd (hello_world._delete_route53_record_set aws cfg s)))
  = (dns_mutations (out s) ++
    [ {| Comment := None;
         Changes := [ {| Action := "DELETE";
                         ResourceRecordSet :=
                           {| rrs_Name := desc_Name d;
                              rrs_ResourceRecords := [first];
                              rrs_TTL := ttl;
                              rrs_Type := desc_Type d |} |} ] |} ])%list.
Proof.
  intros Hl Hn Hr Ht.
  destruct (listed_first_ok _ _ _ _ Hl) as (resp & rest & E1 & E2).
  exec. rewrite E1. exec. rewrite E2. exec.
  rewrite Hn, String.eqb_refl. exec. rewrite Hr. exec. rewrite Ht. exec.
  destruct first as [v]. 
  destruct (route53_change_resource_record_sets aws _ _); exec;
    rewrite !dns_mutations_app; cbn; rewrite ?app_nil_r; rewrite <- ?Hn;
    reflexivity.
Qed.

(** Case analysis on an innermost scrutinee of the goal. *)
Ltac split_match :=
  match goal with
  | |- context [match ?x with _ => _ end] =>
      lazymatch x with
      | context [match _ with _ => _ end] => fail
      | _ => destruct x eqn:?
      end
  end.

Ltac fetched_from Hd Hr Hi :=
  unfold fetched; rewrite Hd, Hr; exact Hi.

Lemma at_most_one_auto aws cfg id :
  at_most_one_mutation aws id (trace_of (synchronize_auto aws cfg id)).
Proof.
  unfold at_most_one_mutation. exec.
  destruct (ec2_describe_instances aws [id]) as [resp |] eqn:Hd; exec;
    [| left; reflexivity].
  destruct (index0 (Reservations resp)) as [r |] eqn:Hr; exec;
    [| left; reflexivity].
  destruct (index0 (Instances r)) as [inst |] eqn:Hi; exec;
    [| left; reflexivity].
  assert (Hf : fetched aws id = Ok inst) by fetched_from Hd Hr Hi.
  destruct (Tags inst) as [tags |]; exec; [| left; reflexivity].
  destruct (PyStr.truthy (next_dns_value tags)); exec; [| left; reflexivity].
  destruct (String.eqb (State_Name inst) "terminated") eqn:Hs; exec;
    repeat (split_match; exec);
    first [ left; reflexivity
          | right; eexists inst, _; split; [exact Hf |];
            split; [reflexivity |];
            eexists; split; [reflexivity | rewrite Hs; reflexivity] ].
Qed.

Lemma at_most_one_hello aws cfg id :
  at_most_one_mutation aws id (trace_of (synchronize_hello aws cfg id)).
Proof.
  unfold at_most_one_mutation. exec.
  destruct (ec2_describe_instances aws [id]) as [resp |] eqn:Hd; exec;
    [| left; reflexivity].
  destruct (index0 (Reservations resp)) as [r |] eqn:Hr; exec;
    [| left; reflexivity].
  destruct (index0 (Instances r)) as [inst |] eqn:Hi; exec;
    [| left; reflexivity].
  assert (Hf : fetched aws id = Ok inst) by fetched_from Hd Hr Hi.
  destruct (String.eqb (State_Name inst) "terminated") eqn:Hs; exec;
    repeat (split_match; exec);
    first [ left; reflexivity
          | right; eexists inst, _; split; [exact Hf |];
            split; [reflexivity |];
            eexists; split; [reflexivity | rewrite Hs; reflexivity] ].
Qed.

Lemma upsert_when_not_terminated_auto aws cfg id inst :
  fetched aws id = Ok inst ->
  State_Name inst <> "terminated" ->
  next_dns_value (tag_set inst) <> "" ->
  exists address,
    changes_submitted (trace_of (synchronize_auto aws cfg id))
    = [ upsert_change
          ("autodns-" ++ next_dns_value (tag_set inst) ++ "."
           ++ auto_dns_mapping.DOMAIN_NAME cfg) address ].
Proof.
  intros Hf Hs Ht.
  destruct (tag_set_nonblank inst Ht) as (tags & Htags & Htruthy).
  unfold tag_set. fetch Hf. rewrite Htags. exec.
  rewrite Htruthy, (eqb_neq_false _ _ Hs). exec.
  repeat (split_match; exec); eexists; reflexivity.
Qed.

Lemma upsert_when_not_terminated_hello aws cfg id inst :
  fetched aws id = Ok inst ->
  State_Name inst <> "terminated" ->
  exists address,
    changes_submitted (trace_of (synchronize_hello aws cfg id))
    = [ upsert_change
          (next_dns_value (tag_set inst) ++ "."
           ++ PyStr.format (hello_world.DOMAIN_NAME cfg)) address ].
Proof.
  intros Hf Hs. unfold tag_set. fetch Hf.
  rewrite (eqb_neq_false _ _ Hs). exec.
  repeat (split_match; exec); eexists; reflexivity.
Qed.

(** ** The derived DNS Name Tag *)

Lemma dns_str_auto aws cfg id inst tags :
  fetched aws id = Ok inst -> Tags inst = Some tags ->
  auto_dns_mapping._dns_str (self (snd (synchronize_auto aws cfg id)))
  = next_dns_value tags.
Proof.
  intros Hf Ht. fetch Hf. rewrite Ht. exec.
  repeat (split_match; exec); reflexivity.
Qed.

Lemma dns_str_hello aws cfg id inst tags :
  fetched aws id = Ok inst -> Tags inst = Some tags ->
  hello_world._dns_str (self (snd (synchronize_hello aws cfg id)))
  = next_dns_value tags.
Proof.
  intros Hf Ht. fetch Hf. rewrite Ht. exec.
  repeat (split_match; exec); reflexivity.
Qed.

(** ** Instances that are not DNS-managed *)

Lemma unmanaged_auto aws cfg id inst :
  fetched aws id = Ok inst ->
  dns_tag_absent_or_blank (tag_set inst) ->
  fst (synchronize_auto aws cfg id) = Ok false /\
  api_calls (trace_of (synchronize_auto aws cfg id))
  = [describe_instances [id]] /\
  dns_mutations (trace_of (synchronize_auto aws cfg id)) = [].
Proof.
  intros Hf Hb. apply next_dns_value_blank in Hb. unfold tag_set in Hb.
  fetch Hf. destruct (Tags inst) as [tags |]; exec.
  - cbn in Hb. rewrite Hb. exec. auto.
  - auto.
Qed.

(** ** The entry point *)

Lemma set_dns_auto_returns aws cfg s :
  exists b s', auto_dns_mapping.set_dns aws cfg s = (Ok b, s').
Proof.
  unfold auto_dns_mapping.set_dns, try_except.
  match goal with |- context [match ?body s with _ => _ end] =>
    destruct (body s) as [[b | e] s'] end;
    unfold bind, print, emit, modify, ret; cbn; eauto.
Qed.

Lemma set_dns_hello_returns aws cfg s :
  exists b s', hello_world.set_dns aws cfg s = (Ok b, s').
Proof.
  unfold hello_world.set_dns, try_except.
  match goal with |- context [match ?body s with _ => _ end] =>
    destruct (body s) as [[b | e] s'] end;
    unfold bind, print, emit, modify, ret; cbn; eauto.
Qed.

(** ** Methods only append to the trace *)

Lemma set_dns_auto_frame aws cfg o t :
  auto_dns_mapping.set_dns aws cfg (mk_state o t)
  = (fst (auto_dns_mapping.set_dns aws cfg (mk_state o [])),
     mk_state (self (snd (auto_dns_mapping.set_dns aws cfg (mk_state o []))))
       (t ++ out (snd (auto_dns_mapping.set_dns aws cfg
                         (mk_state o []))))%list).
Proof.
  exec. repeat (split_match; exec);
    rewrite <- ?app_assoc; reflexivity.
Qed.

Lemma set_dns_hello_frame aws cfg o t :
  hello_world.set_dns aws cfg (mk_state o t)
  = (fst (hello_world.set_dns aws cfg (mk_state o [])),
     mk_state (self (snd (hello_world.set_dns aws cfg (mk_state o []))))
       (t ++ out (snd (hello_world.set_dns aws cfg (mk_state o []))))%list).
Proof.
  exec. repeat (split_match; exec);
    rewrite <- ?app_assoc; reflexivity.
Qed.

(** ** The handler runs [set_dns] once *)

Lemma instance_id_of_ok (ev : event) (id : string) :
  instance_id_of ev = Ok id -> ev = event_dict (Some (detail_dict (Some id))).
Proof.
  destruct ev as [[[[i |] |] |] |]; cbn; intros H;
    try discriminate H.
  injection H as ->. reflexivity.
Qed.

Lemma instance_id_of_raise (ev : event) (e : exn) :
  instance_id_of ev = Raise e ->
  e = KeyError "detail" \/ e = KeyError "instance-id" \/ e = TypeError.
Proof.
  destruct ev as [[[[i |] |] |] |]; cbn; intros H;
    try discriminate H; injection H as <-; auto.
Qed.

Lemma handler_runs_auto aws cfg ev id :
  instance_id_of ev = Ok id ->
  boto3_client aws (Some (auto_dns_mapping.AWS_PRIMARY_REGION cfg)) "ec2"
  = None ->
  boto3_client aws (Some (auto_dns_mapping.AWS_PRIMARY_REGION cfg)) "route53"
  = None ->
  exists b,
    fst (synchronize_auto aws cfg id) = Ok b /\
    auto_dns_mapping.lambda_handler aws cfg ev []
    = (Ok (handler_dict b),
       Print (print_event ev) :: trace_of (synchronize_auto aws cfg id)).
Proof.
  intros Hid He Hr. rewrite (instance_id_of_ok ev id Hid).
  unfold auto_dns_mapping.lambda_handler, auto_dns_mapping.__init__,
    print_top, with_self, bind, lift, modify, ret.
  cbn. rewrite He, Hr.
  rewrite set_dns_auto_frame. unfold synchronize_auto, trace_of.
  destruct (set_dns_auto_returns aws cfg
              (mk_state (auto_dns_mapping.mk_mapper id "" "" "autodns-") []))
    as (b & s' & E).
  rewrite E. exists b. split; reflexivity.
Qed.

Lemma handler_runs_hello aws cfg ev id :
  instance_id_of ev = Ok id ->
  boto3_client aws None "ec2" = None ->
  boto3_client aws None "route53" = None ->
  exists b,
    fst (synchronize_hello aws cfg id) = Ok b /\
    hello_world.lambda_handler aws cfg ev []
    = (Ok (handler_dict b),
       Print (print_event ev) :: trace_of (synchronize_hello aws cfg id)).
Proof.
  intros Hid He Hr. rewrite (instance_id_of_ok ev id Hid).
  unfold hello_world.lambda_handler, hello_world.__init__,
    print_top, with_self, bind, lift, modify, ret.
  cbn. rewrite He, Hr.
  rewrite set_dns_hello_frame. unfold synchronize_hello, trace_of.
  destruct (set_dns_hello_returns aws cfg
              (mk_state (hello_world.mk_mapper id "" "") []))
    as (b & s' & E).
  rewrite E. exists b. split; reflexivity.
Qed.

Lemma other_state_upsert_auto aws cfg id inst :
  fetched aws id = Ok inst ->
  State_Name inst <> "terminated" ->
  State_Name inst <> "running" ->
  State_Name inst <> "stopped" ->
  next_dns_value (tag_set inst) <> "" ->
  changes_submitted (trace_of (synchronize_auto aws cfg id))
  = [ upsert_change
        ("autodns-" ++ next_dns_value (tag_set inst) ++ "."
         ++ auto_dns_mapping.DOMAIN_NAME cfg) "" ].
Proof.
  intros Hf Ht Hr Hs Hn.
  destruct (tag_set_nonblank inst Hn) as (tags & Htags & Htruthy).
  unfold tag_set. fetch Hf. rewrite Htags. exec.
  rewrite Htruthy, (eqb_neq_false _ _ Ht), (eqb_neq_false _ _ Hr),
    (eqb_neq_false _ _ Hs). exec.
  destruct (route53_change_resource_record_sets aws _ _); reflexivity.
Qed.

Lemma other_state_upsert_hello aws cfg id inst :
  fetched aws id = Ok inst ->
  State_Name inst <> "terminated" ->
  State_Name inst <> "running" ->
  State_Name inst <> "stopped" ->
  changes_submitted (trace_of (synchronize_hello aws cfg id))
  = [ upsert_change
        (next_dns_value (tag_set inst) ++ "."
         ++ PyStr.format (hello_world.DOMAIN_NAME cfg)) "" ].
Proof.
  intros Hf Ht Hr Hs. unfold tag_set. fetch Hf.
  rewrite (eqb_neq_false _ _ Ht), (eqb_neq_false _ _ Hr),
    (eqb_neq_false _ _ Hs). exec.
  destruct (route53_change_resource_record_sets aws _ _); reflexivity.
Qed.

Lemma running_upsert_auto aws cfg id inst :
  fetched aws id = Ok inst ->
  State_Name inst = "running" ->
  next_dns_value (tag_set inst) <> "" ->
  changes_submitted (trace_of (synchronize_auto aws cfg id))
  = [ upsert_change
        ("autodns-" ++ next_dns_value (tag_set inst) ++ "."
         ++ auto_dns_mapping.DOMAIN_NAME cfg)
        (dict_get (PublicIpAddress inst) "") ].
Proof.
  intros Hf Hs Hn.
  destruct (tag_set_nonblank inst Hn) as (tags & Htags & Htruthy).
  unfold tag_set. fetch Hf. rewrite Htags. exec.
  rewrite Htruthy, Hs. exec.
  destruct (route53_change_resource_record_sets aws _ _); reflexivity.
Qed.

Lemma running_upsert_hello aws cfg id inst :
  fetched aws id = Ok inst ->
  State_Name inst = "running" ->
  changes_submitted (trace_of (synchronize_hello aws cfg id))
  = [ upsert_change
        (next_dns_value (tag_set inst) ++ "."
         ++ PyStr.format (hello_world.DOMAIN_NAME cfg))
        (dict_get (PublicIpAddress inst) "") ].
Proof.
  intros Hf Hs. unfold tag_set. fetch Hf. rewrite Hs. exec.
  destruct (route53_change_resource_record_sets aws _ _); reflexivity.
Qed.

Lemma dns_calls_of_describe_only (t : trace) (ids : list string) :
  api_calls t = [describe_instances ids] -> dns_calls t = [].
Proof. unfold dns_calls. intros ->. reflexivity. Qed.


(** ** The key test is a case-insensitive comparison *)

Lemma key_is_dns_iff (t : tag) :
  key_is_dns t = true <->
  exists a b c,
    PyStr.strip (tag_Key t) = String a (String b (String c "")) /\
    same_letter "d" a /\ same_letter "n" b /\ same_letter "s" c.
Proof.
  unfold key_is_dns. rewrite String.eqb_eq. apply lower_eq_dns.
Qed.

(** In the auto_dns_mapping variant a tag set without a 'dns' key gives the
    empty DNS Name Tag and no Route 53 call. *)
Lemma no_dns_tag_noop_auto aws cfg id inst :
  fetched aws id = Ok inst ->
  no_dns_tag (tag_set inst) ->
  auto_dns_mapping._dns_str (self (snd (synchronize_auto aws cfg id))) = "" /\
  dns_calls (trace_of (synchronize_auto aws cfg id)) = [].
Proof.
  intros Hf Hno. split.
  - unfold tag_set in Hno. destruct (Tags inst) as [tags |] eqn:Ht.
    + rewrite (dns_str_auto aws cfg id inst tags Hf Ht).
      apply next_dns_value_no_dns_tag. exact Hno.
    + fetch Hf. rewrite Ht. reflexivity.
  - destruct (unmanaged_auto aws cfg id inst Hf (or_introl Hno))
      as (_ & Hc & _).
    eapply dns_calls_of_describe_only. exact Hc.
Qed.
(** ** Deleting the record of a terminated instance *)

(** [set_dns] without the bodies of the two Route 53 methods. *)
Ltac exec_top :=
  unfold synchronize_auto, synchronize_hello, trace_of,
    auto_dns_mapping.set_dns, hello_world.set_dns,
    try_except, bind, call, emit, print, modify, lift, get, ret, update_self;
  cbn -[append next_dns_value PyStr.truthy
        auto_dns_mapping._delete_route53_record_set
        hello_world._delete_route53_record_set
        auto_dns_mapping._create_route53_record_set
        hello_world._create_route53_record_set].

Lemma terminated_delete_auto aws cfg id inst d first others ttl :
  fetched aws id = Ok inst ->
  State_Name inst = "terminated" ->
  next_dns_value (tag_set inst) <> "" ->
  listed_first aws (Some (auto_dns_mapping.ROUTE53_ZONE_ID cfg))
    ("autodns-" ++ next_dns_value (tag_set inst) ++ "."
     ++ auto_dns_mapping.DOMAIN_NAME cfg) = Ok d ->
  desc_Name d
  = ("autodns-" ++ next_dns_value (tag_set inst) ++ "."
     ++ auto_dns_mapping.DOMAIN_NAME cfg) ++ "." ->
  desc_ResourceRecords d = Some (first :: others) ->
  desc_TTL d = Some ttl ->
  dns_mutations (trace_of (synchronize_auto aws cfg id))
  = [ {| Comment := None;
         Changes :=
           [ {| Action := "DELETE";
                ResourceRecordSet :=
                  {| rrs_Name := desc_Name d;
                     rrs_ResourceRecords := [first];
                     rrs_TTL := ttl;
                     rrs_Type := desc_Type d |} |} ] |} ].
Proof.
  intros Hf Hs Hn Hl Hname Hr Ht.
  destruct (tag_set_nonblank inst Hn) as (tags & Htags & Htruthy).
  unfold tag_set in Hl, Hname. rewrite Htags in Hl, Hname.
  cbn [dict_get] in Hl, Hname.
  destruct (fetched_ok _ _ _ Hf) as (resp & r & ? & ? & E1 & E2 & E3).
  exec_top. rewrite E1. exec_top. rewrite E2. exec_top. rewrite E3.
  exec_top. rewrite Htags. exec_top. rewrite Htruthy, Hs. exec_top.
  match goal with
  | |- context [auto_dns_mapping._delete_route53_record_set aws cfg ?s] =>
      pose proof (delete_match_auto aws cfg s d first others ttl
                    Hl Hname Hr Ht) as Hm;
      destruct (auto_dns_mapping._delete_route53_record_set aws cfg s)
        as [[b | e] s']
  end; cbn in Hm |- *; rewrite ?dns_mutations_app, Hm; cbn;
    rewrite ?app_nil_r; reflexivity.
Qed.

Lemma terminated_delete_hello aws cfg id inst d first others ttl :
  fetched aws id = Ok inst ->
  State_Name inst = "terminated" ->
  listed_first aws (hello_world.ROUTE53_ZONE_ID cfg)
    (next_dns_value (tag_set inst) ++ "."
     ++ PyStr.format (hello_world.DOMAIN_NAME cfg)) = Ok d ->
  desc_Name d
  = (next_dns_value (tag_set inst) ++ "."
     ++ PyStr.format (hello_world.DOMAIN_NAME cfg)) ++ "." ->
  desc_ResourceRecords d = Some (first :: others) ->
  desc_TTL d = Some ttl ->
  dns_mutations (trace_of (synchronize_hello aws cfg id))
  = [ {| Comment := None;
         Changes :=
           [ {| Action := "DELETE";
                ResourceRecordSet :=
                  {| rrs_Name := desc_Name d;
                     rrs_ResourceRecords := [first];
                     rrs_TTL := ttl;
                     rrs_Type := desc_Type d |} |} ] |} ].
Proof.
  intros Hf Hs Hl Hname Hr Ht. unfold tag_set in Hl, Hname.
  destruct (fetched_ok _ _ _ Hf) as (resp & r & ? & ? & E1 & E2 & E3).
  exec_top. rewrite E1. exec_top. rewrite E2. exec_top. rewrite E3.
  exec_top. rewrite Hs. exec_top.
  match goal with
  | |- context [hello_world._delete_route53_record_set aws cfg ?s] =>
      pose proof (delete_match_hello aws cfg s d first others ttl
                    Hl Hname Hr Ht) as Hm;
      destruct (hello_world._delete_route53_record_set aws cfg s)
        as [[b | e] s']
  end; cbn in Hm |- *; rewrite ?dns_mutations_app, Hm; cbn;
    rewrite ?app_nil_r; reflexivity.
Qed.

(** ** The claims of the specification *)

(** C1, as amended.  When the fetched snapshot has no tag whose trimmed key
    is 'dns' in any letter case, or the value of that tag is blank after
    trimming, [set_dns] of the auto_dns_mapping variant returns [False]
    (the failure result, not a success), the only request it sends is the
    EC2 describe call, and no record is created or deleted. *)
Theorem C1_unmanaged_instance_fails_without_dns_call
    (aws : AWS) (cfg : auto_dns_mapping.config) (id : string)
    (inst : instance) :
  fetched aws id = Ok inst ->
  dns_tag_absent_or_blank (tag_set inst) ->
  fst (synchronize_auto aws cfg id) = Ok false /\
  dns_calls (trace_of (synchronize_auto aws cfg id)) = [] /\
  dns_mutations (trace_of (synchronize_auto aws cfg id)) = [].
Proof.
  intros Hf Hb.
  destruct (unmanaged_auto aws cfg id inst Hf Hb) as (Hr & Hc & Hm).
  repeat split; [exact Hr | | exact Hm].
  eapply dns_calls_of_describe_only. exact Hc.
Qed.

Lemma C1_witness :
  fetched (example_aws untagged_instance []) "i-0abc" = Ok untagged_instance /\
  dns_tag_absent_or_blank (tag_set untagged_instance) /\
  fst (synchronize_auto (example_aws untagged_instance []) example_cfg_auto
         "i-0abc") = Ok false /\
  dns_calls (trace_of (synchronize_auto (example_aws untagged_instance [])
                         example_cfg_auto "i-0abc")) = [] /\
  dns_mutations (trace_of (synchronize_auto (example_aws untagged_instance [])
                             example_cfg_auto "i-0abc")) = [].
Proof.
  assert (Hb : dns_tag_absent_or_blank (tag_set untagged_instance))
    by (left; repeat constructor).
  split; [reflexivity |]. split; [exact Hb |].
  apply (C1_unmanaged_instance_fails_without_dns_call
           (example_aws untagged_instance []) example_cfg_auto "i-0abc"
           untagged_instance eq_refl Hb).
Defined.

(** C1 as stated fails: for an instance without a 'dns' tag the
    auto_dns_mapping variant returns [False], and the handler reports
    status 500, the failure result. *)
Lemma C1_counterexample :
  dns_tag_absent_or_blank (tag_set untagged_instance) /\
  fst (synchronize_auto (example_aws untagged_instance []) example_cfg_auto
         "i-0abc") = Ok false /\
  fst (auto_dns_mapping.lambda_handler (example_aws untagged_instance [])
         example_cfg_auto example_event []) = Ok failure_result /\
  failure_result <> success_result.
Proof.
  split; [left; repeat constructor |].
  split; [reflexivity |]. split; [reflexivity | discriminate].
Qed.

(** C2 fails on the code.  For an instance in state pending with tag
    dns=web1, neither variant stops: each submits an UPSERT whose address is
    the empty string. *)
Theorem C2_pending_state_submits_empty_upsert :
  changes_submitted
    (trace_of (synchronize_auto (example_aws pending_instance [])
                 example_cfg_auto "i-0abc"))
  = [ {| Action := "UPSERT";
         ResourceRecordSet :=
           {| rrs_Name := "autodns-web1.example.com";
              rrs_ResourceRecords := [ {| rr_Value := "" |} ];
              rrs_TTL := 300;
              rrs_Type := "A" |} |} ] /\
  changes_submitted
    (trace_of (synchronize_hello (example_aws pending_instance [])
                 example_cfg_hello "i-0abc"))
  = [ {| Action := "UPSERT";
         ResourceRecordSet :=
           {| rrs_Name := "web1.example.com";
              rrs_ResourceRecords := [ {| rr_Value := "" |} ];
              rrs_TTL := 300;
              rrs_Type := "A" |} |} ].
Proof. split; reflexivity. Qed.

(** C3, as amended.  For every event that carries detail.instance-id, and
    when the variant's two clients can be constructed, [lambda_handler]
    raises nothing and returns one of two results: status 200 with the JSON
    text of "Function executed" when [set_dns] returned [True], status 500
    with the JSON text of "Function failed" when it returned [False]; the
    two results differ. *)
Theorem C3_handler_returns_a_status
    (aws : AWS) (cfg_auto : auto_dns_mapping.config)
    (cfg_hello : hello_world.config) (ev : event) (id : string) :
  instance_id_of ev = Ok id ->
  (boto3_client aws (Some (auto_dns_mapping.AWS_PRIMARY_REGION cfg_auto))
     "ec2" = None ->
   boto3_client aws (Some (auto_dns_mapping.AWS_PRIMARY_REGION cfg_auto))
     "route53" = None ->
   (fst (synchronize_auto aws cfg_auto id) = Ok true /\
    fst (auto_dns_mapping.lambda_handler aws cfg_auto ev [])
    = Ok success_result) \/
   (fst (synchronize_auto aws cfg_auto id) = Ok false /\
    fst (auto_dns_mapping.lambda_handler aws cfg_auto ev [])
    = Ok failure_result)) /\
  (boto3_client aws None "ec2" = None ->
   boto3_client aws None "route53" = None ->
   (fst (synchronize_hello aws cfg_hello id) = Ok true /\
    fst (hello_world.lambda_handler aws cfg_hello ev [])
    = Ok success_result) \/
   (fst (synchronize_hello aws cfg_hello id) = Ok false /\
    fst (hello_world.lambda_handler aws cfg_hello ev [])
    = Ok failure_result)) /\
  success_result <> failure_result.
Proof.
  intros Hid. repeat split.
  - intros He Hr.
    destruct (handler_runs_auto aws cfg_auto ev id Hid He Hr)
      as (b & Hb & Hh).
    rewrite Hh, Hb. destruct b; [left | right]; split; reflexivity.
  - intros He Hr.
    destruct (handler_runs_hello aws cfg_hello ev id Hid He Hr)
      as (b & Hb & Hh).
    rewrite Hh, Hb. destruct b; [left | right]; split; reflexivity.
  - discriminate.
Qed.

Lemma C3_witness :
  instance_id_of example_event = Ok "i-0abc" /\
  (fst (synchronize_auto (example_aws scenario_a_instance [])
          example_cfg_auto "i-0abc") = Ok true /\
   fst (auto_dns_mapping.lambda_handler (example_aws scenario_a_instance [])
          example_cfg_auto example_event []) = Ok success_result) /\
  (fst (synchronize_hello (example_aws scenario_a_instance [])
          example_cfg_hello "i-0abc") = Ok true /\
   fst (hello_world.lambda_handler (example_aws scenario_a_instance [])
          example_cfg_hello example_event []) = Ok success_result) /\
  (fst (synchronize_auto (example_aws untagged_instance [])
          example_cfg_auto "i-0abc") = Ok false /\
   fst (auto_dns_mapping.lambda_handler (example_aws untagged_instance [])
          example_cfg_auto example_event []) = Ok failure_result).
Proof.
  split; [reflexivity |].
  destruct (C3_handler_returns_a_status (example_aws scenario_a_instance [])
              example_cfg_auto example_cfg_hello example_event "i-0abc"
              eq_refl) as (Ha & Hh & _).
  destruct (C3_handler_returns_a_status (example_aws untagged_instance [])
              example_cfg_auto example_cfg_hello example_event "i-0abc"
              eq_refl) as (Hf & _ & _).
  destruct (Ha eq_refl eq_refl) as [Ha1 | [Ha1 _]];
    [| discriminate Ha1].
  destruct (Hh eq_refl eq_refl) as [Hh1 | [Hh1 _]];
    [| discriminate Hh1].
  destruct (Hf eq_refl eq_refl) as [[Hf1 _] | Hf1];
    [discriminate Hf1 |].
  auto.
Defined.

(** C3 as stated fails: an event without the 'detail' key makes both
    handlers raise KeyError, which nothing catches. *)
Lemma C3_counterexample :
  fst (auto_dns_mapping.lambda_handler (example_aws scenario_a_instance [])
         example_cfg_auto empty_event []) = Raise (KeyError "detail") /\
  fst (hello_world.lambda_handler (example_aws scenario_a_instance [])
         example_cfg_hello empty_event []) = Raise (KeyError "detail").
Proof. split; reflexivity. Qed.

(** C4, as amended.  For an instance in state running with tag dns=web1,
    public address 1.2.3.4 and parent domain example.com, the only change
    submitted is an UPSERT with value 1.2.3.4, TTL 300 and type A; its record
    name is web1.example.com in the hello_world variant and
    autodns-web1.example.com in the auto_dns_mapping variant. *)
Theorem C4_scenario_a_upsert
    (aws : AWS) (cfg_auto : auto_dns_mapping.config)
    (cfg_hello : hello_world.config) (id : string) (inst : instance) :
  fetched aws id = Ok inst ->
  State_Name inst = "running" ->
  PublicIpAddress inst = Some "1.2.3.4" ->
  Tags inst = Some [mk_tag "dns" "web1"] ->
  auto_dns_mapping.DOMAIN_NAME cfg_auto = "example.com" ->
  hello_world.DOMAIN_NAME cfg_hello = Some "example.com" ->
  changes_submitted (trace_of (synchronize_hello aws cfg_hello id))
  = [ {| Action := "UPSERT";
         ResourceRecordSet :=
           {| rrs_Name := "web1.example.com";
              rrs_ResourceRecords := [ {| rr_Value := "1.2.3.4" |} ];
              rrs_TTL := 300;
              rrs_Type := "A" |} |} ] /\
  changes_submitted (trace_of (synchronize_auto aws cfg_auto id))
  = [ {| Action := "UPSERT";
         ResourceRecordSet :=
           {| rrs_Name := "autodns-web1.example.com";
              rrs_ResourceRecords := [ {| rr_Value := "1.2.3.4" |} ];
              rrs_TTL := 300;
              rrs_Type := "A" |} |} ].
Proof.
  intros Hf Hs Hip Htags Hda Hdh.
  assert (Hn : next_dns_value (tag_set inst) = "web1")
    by (unfold tag_set; rewrite Htags; reflexivity).
  split.
  - rewrite (running_upsert_hello aws cfg_hello id inst Hf Hs).
    rewrite Hn, Hip, Hdh. reflexivity.
  - rewrite (running_upsert_auto aws cfg_auto id inst Hf Hs)
      by (rewrite Hn; discriminate).
    rewrite Hn, Hip, Hda. reflexivity.
Qed.

Lemma C4_witness :
  changes_submitted
    (trace_of (synchronize_hello (example_aws scenario_a_instance [])
                 example_cfg_hello "i-0abc"))
  = [ {| Action := "UPSERT";
         ResourceRecordSet :=
           {| rrs_Name := "web1.example.com";
              rrs_ResourceRecords := [ {| rr_Value := "1.2.3.4" |} ];
              rrs_TTL := 300;
              rrs_Type := "A" |} |} ] /\
  changes_submitted
    (trace_of (synchronize_auto (example_aws scenario_a_instance [])
                 example_cfg_auto "i-0abc"))
  = [ {| Action := "UPSERT";
         ResourceRecordSet :=
           {| rrs_Name := "autodns-web1.example.com";
              rrs_ResourceRecords := [ {| rr_Value := "1.2.3.4" |} ];
              rrs_TTL := 300;
              rrs_Type := "A" |} |} ].
Proof.
  apply (C4_scenario_a_upsert (example_aws scenario_a_instance [])
           example_cfg_auto example_cfg_hello "i-0abc" scenario_a_instance
           eq_refl eq_refl eq_refl eq_refl eq_refl eq_refl).
Defined.

(** C4 as stated fails in the auto_dns_mapping variant: the record name it
    upserts carries the prefix, so it is not web1.example.com. *)
Lemma C4_counterexample :
  names_submitted
    (trace_of (synchronize_auto (example_aws scenario_a_instance [])
                 example_cfg_auto "i-0abc"))
  = ["autodns-web1.example.com"] /\
  names_submitted
    (trace_of (synchronize_auto (example_aws scenario_a_instance [])
                 example_cfg_auto "i-0abc"))
  <> ["web1.example.com"].
Proof. split; [reflexivity | discriminate]. Qed.

(** C5.  During deletion, when the record set the zone query returns first
    has a name other than the target name followed by a dot, the method
    returns [False] without raising and submits no change.  The target name
    is prefix, DNS Name Tag, dot, domain in the auto_dns_mapping variant and
    DNS Name Tag, dot, domain in the hello_world variant. *)
Theorem C5_delete_mismatch_submits_nothing
    (aws : AWS) (cfg_auto : auto_dns_mapping.config)
    (cfg_hello : hello_world.config)
    (s_auto : state auto_dns_mapping.IpToDNSMapper)
    (s_hello : state hello_world.IpToDNSMapper)
    (d_auto d_hello : record_desc) :
  listed_first aws (Some (auto_dns_mapping.ROUTE53_ZONE_ID cfg_auto))
    (auto_dns_mapping.record_name cfg_auto (self s_auto)) = Ok d_auto ->
  desc_Name d_auto
  <> auto_dns_mapping.record_name cfg_auto (self s_auto) ++ "." ->
  listed_first aws (hello_world.ROUTE53_ZONE_ID cfg_hello)
    (hello_world.record_name cfg_hello (self s_hello)) = Ok d_hello ->
  desc_Name d_hello
  <> hello_world.record_name cfg_hello (self s_hello) ++ "." ->
  (fst (auto_dns_mapping._delete_route53_record_set aws cfg_auto s_auto)
   = Ok false /\
   dns_mutations
     (out (snd (auto_dns_mapping._delete_route53_record_set aws cfg_auto
                  s_auto)))
   = dns_mutations (out s_auto)) /\
  (fst (hello_world._delete_route53_record_set aws cfg_hello s_hello)
   = Ok false /\
   dns_mutations
     (out (snd (hello_world._delete_route53_record_set aws cfg_hello
                  s_hello)))
   = dns_mutations (out s_hello)).
Proof.
  intros Ha Hna Hh Hnh. split.
  - exact (delete_mismatch_auto aws cfg_auto s_auto d_auto Ha Hna).
  - exact (delete_mismatch_hello aws cfg_hello s_hello d_hello Hh Hnh).
Qed.

Lemma C5_witness :
  (fst (auto_dns_mapping._delete_route53_record_set
          (example_aws scenario_a_instance [unrelated_record])
          example_cfg_auto auto_web1) = Ok false /\
   dns_mutations
     (out (snd (auto_dns_mapping._delete_route53_record_set
                  (example_aws scenario_a_instance [unrelated_record])
                  example_cfg_auto auto_web1))) = []) /\
  (fst (hello_world._delete_route53_record_set
          (example_aws scenario_a_instance [unrelated_record])
          example_cfg_hello hello_web1) = Ok false /\
   dns_mutations
     (out (snd (hello_world._delete_route53_record_set
                  (example_aws scenario_a_instance [unrelated_record])
                  example_cfg_hello hello_web1))) = []).
Proof.
  apply (C5_delete_mismatch_submits_nothing
           (example_aws scenario_a_instance [unrelated_record])
           example_cfg_auto example_cfg_hello auto_web1 hello_web1
           unrelated_record unrelated_record);
    first [reflexivity | discriminate].
Defined.

(** C6, as amended.  Every invocation issues at most one mutating call
    against the DNS-zone API; when it issues one, the batch holds a single
    change, a DELETE if the lifecycle state is terminated and an UPSERT
    otherwise.  Exactly one, an UPSERT, is issued when the snapshot is
    fetched and the state is not terminated; exactly one, a DELETE, when the
    state is terminated and the pre-check matches a record set that has a
    TTL and a resource value.  In the auto_dns_mapping variant both need a
    DNS Name Tag that is not blank. *)
Theorem C6_at_most_one_mutation
    (aws : AWS) (cfg_auto : auto_dns_mapping.config)
    (cfg_hello : hello_world.config) (id : string) :
  at_most_one_mutation aws id (trace_of (synchronize_auto aws cfg_auto id)) /\
  at_most_one_mutation aws id (trace_of (synchronize_hello aws cfg_hello id))
  /\
  (forall inst,
      fetched aws id = Ok inst ->
      State_Name inst <> "terminated" ->
      next_dns_value (tag_set inst) <> "" ->
      exists b c,
        dns_mutations (trace_of (synchronize_auto aws cfg_auto id)) = [b] /\
        Changes b = [c] /\ Action c = "UPSERT") /\
  (forall inst,
      fetched aws id = Ok inst ->
      State_Name inst <> "terminated" ->
      exists b c,
        dns_mutations (trace_of (synchronize_hello aws cfg_hello id)) = [b] /\
        Changes b = [c] /\ Action c = "UPSERT") /\
  (forall inst d first others ttl,
      fetched aws id = Ok inst ->
      State_Name inst = "terminated" ->
      next_dns_value (tag_set inst) <> "" ->
      listed_first aws (Some (auto_dns_mapping.ROUTE53_ZONE_ID cfg_auto))
        ("autodns-" ++ next_dns_value (tag_set inst) ++ "."
         ++ auto_dns_mapping.DOMAIN_NAME cfg_auto) = Ok d ->
      desc_Name d
      = ("autodns-" ++ next_dns_value (tag_set inst) ++ "."
         ++ auto_dns_mapping.DOMAIN_NAME cfg_auto) ++ "." ->
      desc_ResourceRecords d = Some (first :: others) ->
      desc_TTL d = Some ttl ->
      exists b c,
        dns_mutations (trace_of (synchronize_auto aws cfg_auto id)) = [b] /\
        Changes b = [c] /\ Action c = "DELETE") /\
  (forall inst d first others ttl,
      fetched aws id = Ok inst ->
      State_Name inst = "terminated" ->
      listed_first aws (hello_world.ROUTE53_ZONE_ID cfg_hello)
        (next_dns_value (tag_set inst) ++ "."
         ++ PyStr.format (hello_world.DOMAIN_NAME cfg_hello)) = Ok d ->
      desc_Name d
      = (next_dns_value (tag_set inst) ++ "."
         ++ PyStr.format (hello_world.DOMAIN_NAME cfg_hello)) ++ "." ->
      desc_ResourceRecords d = Some (first :: others) ->
      desc_TTL d = Some ttl ->
      exists b c,
        dns_mutations (trace_of (synchronize_hello aws cfg_hello id)) = [b] /\
        Changes b = [c] /\ Action c = "DELETE").
Proof.
  split; [apply at_most_one_auto |].
  split; [apply at_most_one_hello |].
  split; [| split; [| split]].
  - intros inst Hf Hs Hn.
    destruct (upsert_when_not_terminated_auto aws cfg_auto id inst Hf Hs Hn)
      as [address Hc].
    destruct (at_most_one_auto aws cfg_auto id)
      as [H0 | (i & b & _ & H1 & _)]; unfold changes_submitted in Hc.
    + rewrite H0 in Hc. discriminate Hc.
    + rewrite H1 in Hc. cbn in Hc. rewrite app_nil_r in Hc.
      exists b, (upsert_change
                   ("autodns-" ++ next_dns_value (tag_set inst) ++ "."
                    ++ auto_dns_mapping.DOMAIN_NAME cfg_auto) address).
      auto.
  - intros inst Hf Hs.
    destruct (upsert_when_not_terminated_hello aws cfg_hello id inst Hf Hs)
      as [address Hc].
    destruct (at_most_one_hello aws cfg_hello id)
      as [H0 | (i & b & _ & H1 & _)]; unfold changes_submitted in Hc.
    + rewrite H0 in Hc. discriminate Hc.
    + rewrite H1 in Hc. cbn in Hc. rewrite app_nil_r in Hc.
      exists b, (upsert_change
                   (next_dns_value (tag_set inst) ++ "."
                    ++ PyStr.format (hello_world.DOMAIN_NAME cfg_hello))
                   address).
      auto.
  - intros inst d first others ttl Hf Hs Hn Hl Hname Hr Ht.
    rewrite (terminated_delete_auto aws cfg_auto id inst d first others ttl
               Hf Hs Hn Hl Hname Hr Ht).
    eexists. eexists. repeat split.
  - intros inst d first others ttl Hf Hs Hl Hname Hr Ht.
    rewrite (terminated_delete_hello aws cfg_hello id inst d first others ttl
               Hf Hs Hl Hname Hr Ht).
    eexists. eexists. repeat split.
Qed.

Lemma C6_witness :
  (exists b c,
      dns_mutations
        (trace_of (synchronize_auto (example_aws scenario_a_instance [])
                     example_cfg_auto "i-0abc")) = [b] /\
      Changes b = [c] /\ Action c = "UPSERT") /\
  (exists b c,
      dns_mutations
        (trace_of (synchronize_auto
                     (example_aws terminated_instance [auto_record])
                     example_cfg_auto "i-0abc")) = [b] /\
      Changes b = [c] /\ Action c = "DELETE") /\
  (exists b c,
      dns_mutations
        (trace_of (synchronize_hello
                     (example_aws terminated_instance [hello_record])
                     example_cfg_hello "i-0abc")) = [b] /\
      Changes b = [c] /\ Action c = "DELETE").
Proof.
  destruct (C6_at_most_one_mutation (example_aws scenario_a_instance [])
              example_cfg_auto example_cfg_hello "i-0abc")
    as (_ & _ & Hu & _).
  destruct (C6_at_most_one_mutation
              (example_aws terminated_instance [auto_record])
              example_cfg_auto example_cfg_hello "i-0abc")
    as (_ & _ & _ & _ & Hda & _).
  destruct (C6_at_most_one_mutation
              (example_aws terminated_instance [hello_record])
              example_cfg_auto example_cfg_hello "i-0abc")
    as (_ & _ & _ & _ & _ & Hdh).
  split; [| split].
  - apply (Hu scenario_a_instance eq_refl); discriminate.
  - apply (Hda terminated_instance auto_record (mk_rr "1.2.3.4") [] 300%Z
             eq_refl eq_refl); first [discriminate | reflexivity].
  - apply (Hdh terminated_instance hello_record (mk_rr "1.2.3.4") [] 300%Z
             eq_refl eq_refl); reflexivity.
Defined.

(** C6 as stated fails: an invocation on an instance without a 'dns' tag
    issues no mutating call at all in the auto_dns_mapping variant. *)
Lemma C6_counterexample :
  dns_mutations
    (trace_of (synchronize_auto (example_aws untagged_instance [])
                 example_cfg_auto "i-0abc")) = [] /\
  length
    (dns_mutations
       (trace_of (synchronize_auto (example_aws untagged_instance [])
                    example_cfg_auto "i-0abc"))) <> 1%nat.
Proof. split; [reflexivity | discriminate]. Qed.

(** C7, as amended.  When the deletion pre-check matches and the record set
    returned has a TTL and at least one resource value, exactly one DELETE
    change is submitted; it carries the name, the TTL and the type the zone
    query returned, and one resource value, the first of those returned. *)
Theorem C7_delete_carries_first_value
    (aws : AWS) (cfg_auto : auto_dns_mapping.config)
    (cfg_hello : hello_world.config)
    (s_auto : state auto_dns_mapping.IpToDNSMapper)
    (s_hello : state hello_world.IpToDNSMapper)
    (d_auto d_hello : record_desc) (first_auto first_hello : resource_record)
    (others_auto others_hello : list resource_record)
    (ttl_auto ttl_hello : Z) :
  listed_first aws (Some (auto_dns_mapping.ROUTE53_ZONE_ID cfg_auto))
    (auto_dns_mapping.record_name cfg_auto (self s_auto)) = Ok d_auto ->
  desc_Name d_auto
  = auto_dns_mapping.record_name cfg_auto (self s_auto) ++ "." ->
  desc_ResourceRecords d_auto = Some (first_auto :: others_auto) ->
  desc_TTL d_auto = Some ttl_auto ->
  listed_first aws (hello_world.ROUTE53_ZONE_ID cfg_hello)
    (hello_world.record_name cfg_hello (self s_hello)) = Ok d_hello ->
  desc_Name d_hello
  = hello_world.record_name cfg_hello (self s_hello) ++ "." ->
  desc_ResourceRecords d_hello = Some (first_hello :: others_hello) ->
  desc_TTL d_hello = Some ttl_hello ->
  dns_mutations
    (out (snd (auto_dns_mapping._delete_route53_record_set aws cfg_auto
                 s_auto)))
  = (dns_mutations (out s_auto) ++
     [ {| Comment := None;
          Changes :=
            [ {| Action := "DELETE";
                 ResourceRecordSet :=
                   {| rrs_Name := desc_Name d_auto;
                      rrs_ResourceRecords := [first_auto];
                      rrs_TTL := ttl_auto;
                      rrs_Type := desc_Type d_auto |} |} ] |} ])%list /\
  dns_mutations
    (out (snd (hello_world._delete_route53_record_set aws cfg_hello
                 s_hello)))
  = (dns_mutations (out s_hello) ++
     [ {| Comment := None;
          Changes :=
            [ {| Action := "DELETE";
                 ResourceRecordSet :=
                   {| rrs_Name := desc_Name d_hello;
                      rrs_ResourceRecords := [first_hello];
                      rrs_TTL := ttl_hello;
                      rrs_Type := desc_Type d_hello |} |} ] |} ])%list.
Proof.
  intros Ha Hna Hra Hta Hh Hnh Hrh Hth. split.
  - exact (delete_match_auto aws cfg_auto s_auto d_auto first_auto others_auto
             ttl_auto Ha Hna Hra Hta).
  - exact (delete_match_hello aws cfg_hello s_hello d_hello first_hello
             others_hello ttl_hello Hh Hnh Hrh Hth).
Qed.

Lemma C7_witness :
  dns_mutations
    (out (snd (auto_dns_mapping._delete_route53_record_set example_zone
                 example_cfg_auto auto_web1)))
  = [ {| Comment := None;
         Changes :=
           [ {| Action := "DELETE";
                ResourceRecordSet :=
                  {| rrs_Name := "autodns-web1.example.com.";
                     rrs_ResourceRecords := [ {| rr_Value := "1.2.3.4" |} ];
                     rrs_TTL := 300;
                     rrs_Type := "A" |} |} ] |} ] /\
  dns_mutations
    (out (snd (hello_world._delete_route53_record_set example_zone
                 example_cfg_hello hello_web1)))
  = [ {| Comment := None;
         Changes :=
           [ {| Action := "DELETE";
                ResourceRecordSet :=
                  {| rrs_Name := "web1.example.com.";
                     rrs_ResourceRecords := [ {| rr_Value := "1.2.3.4" |} ];
                     rrs_TTL := 300;
                     rrs_Type := "A" |} |} ] |} ].
Proof.
  apply (C7_delete_carries_first_value example_zone example_cfg_auto
           example_cfg_hello auto_web1 hello_web1 auto_record hello_record
           (mk_rr "1.2.3.4") (mk_rr "1.2.3.4") [] [] 300%Z 300%Z);
    reflexivity.
Defined.

(** C7 as stated fails: for a matching record set with two resource values
    the DELETE submitted carries the first value only. *)
Lemma C7_counterexample :
  listed_first (example_aws scenario_a_instance [two_value_record])
    (hello_world.ROUTE53_ZONE_ID example_cfg_hello)
    (hello_world.record_name example_cfg_hello (self hello_web1))
  = Ok two_value_record /\
  desc_Name two_value_record
  = hello_world.record_name example_cfg_hello (self hello_web1) ++ "." /\
  desc_ResourceRecords two_value_record
  = Some [mk_rr "1.2.3.4"; mk_rr "5.6.7.8"] /\
  values_submitted
    (out (snd (hello_world._delete_route53_record_set
                 (example_aws scenario_a_instance [two_value_record])
                 example_cfg_hello hello_web1)))
  = [ [mk_rr "1.2.3.4"] ] /\
  values_submitted
    (out (snd (hello_world._delete_route53_record_set
                 (example_aws scenario_a_instance [two_value_record])
                 example_cfg_hello hello_web1)))
  <> [ [mk_rr "1.2.3.4"; mk_rr "5.6.7.8"] ].
Proof. repeat split; first [reflexivity | discriminate]. Qed.

(** C8.  For an instance in state stopped whose DNS Name Tag is not blank,
    exactly one batch is submitted and it holds exactly one change: an UPSERT
    of type A with TTL 300 whose single resource value is 127.0.0.1. *)
Theorem C8_stopped_upserts_loopback
    (aws : AWS) (cfg_auto : auto_dns_mapping.config)
    (cfg_hello : hello_world.config) (id : string) (inst : instance) :
  fetched aws id = Ok inst ->
  State_Name inst = "stopped" ->
  next_dns_value (tag_set inst) <> "" ->
  dns_mutations (trace_of (synchronize_auto aws cfg_auto id))
  = [ {| Comment := Some ("DNS attached to instance " ++ id);
         Changes :=
           [ {| Action := "UPSERT";
                ResourceRecordSet :=
                  {| rrs_Name :=
                       "autodns-" ++ next_dns_value (tag_set inst) ++ "."
                       ++ auto_dns_mapping.DOMAIN_NAME cfg_auto;
                     rrs_ResourceRecords := [ {| rr_Value := "127.0.0.1" |} ];
                     rrs_TTL := 300;
                     rrs_Type := "A" |} |} ] |} ] /\
  dns_mutations (trace_of (synchronize_hello aws cfg_hello id))
  = [ {| Comment := Some ("DNS attached to instance " ++ id);
         Changes :=
           [ {| Action := "UPSERT";
                ResourceRecordSet :=
                  {| rrs_Name :=
                       next_dns_value (tag_set inst) ++ "."
                       ++ PyStr.format (hello_world.DOMAIN_NAME cfg_hello);
                     rrs_ResourceRecords := [ {| rr_Value := "127.0.0.1" |} ];
                     rrs_TTL := 300;
                     rrs_Type := "A" |} |} ] |} ].
Proof.
  intros Hf Hs Hn. split.
  - exact (stopped_upsert_auto aws id inst Hf Hs Hn cfg_auto).
  - exact (stopped_upsert_hello aws id inst Hf Hs cfg_hello).
Qed.

Lemma C8_witness :
  next_dns_value (tag_set scenario_b_instance) = "web1" /\
  names_submitted
    (trace_of (synchronize_auto (example_aws scenario_b_instance [])
                 example_cfg_auto "i-0abc")) = ["autodns-web1.example.com"] /\
  values_submitted
    (trace_of (synchronize_hello (example_aws scenario_b_instance [])
                 example_cfg_hello "i-0abc")) = [ [mk_rr "127.0.0.1"] ].
Proof.
  destruct (C8_stopped_upserts_loopback (example_aws scenario_b_instance [])
              example_cfg_auto example_cfg_hello "i-0abc" scenario_b_instance
              eq_refl eq_refl) as [Ha Hh].
  - discriminate.
  - split; [reflexivity |].
    unfold names_submitted, values_submitted, changes_submitted.
    rewrite Ha, Hh. split; reflexivity.
Defined.

(** C9 fails on the code of the hello_world variant.  With no tag whose key
    is 'dns' the extraction yields the empty string, yet the invocation is
    not a no-op: an UPSERT for the name .example.com is submitted. *)
Theorem C9_hello_world_upserts_without_dns_tag :
  no_dns_tag (tag_set untagged_instance) /\
  hello_world._dns_str
    (self (snd (synchronize_hello (example_aws untagged_instance [])
                  example_cfg_hello "i-0abc"))) = "" /\
  changes_submitted
    (trace_of (synchronize_hello (example_aws untagged_instance [])
                 example_cfg_hello "i-0abc"))
  = [ {| Action := "UPSERT";
         ResourceRecordSet :=
           {| rrs_Name := ".example.com";
              rrs_ResourceRecords := [ {| rr_Value := "1.2.3.4" |} ];
              rrs_TTL := 300;
              rrs_Type := "A" |} |} ].
Proof. split; [repeat constructor | split; reflexivity]. Qed.

(** C10.  When several tags have a key that is 'dns' once trimmed and
    lower-cased, the DNS Name Tag both variants derive is the trimmed,
    lower-cased value of the first of them in the order of the tag list;
    the tags after it play no part. *)
Theorem C10_first_dns_tag_wins
    (aws : AWS) (cfg_auto : auto_dns_mapping.config)
    (cfg_hello : hello_world.config) (id : string) (inst : instance)
    (pre post : list tag) (t : tag) :
  fetched aws id = Ok inst ->
  Tags inst = Some (pre ++ t :: post)%list ->
  no_dns_tag pre ->
  key_is_dns t = true ->
  next_dns_value (pre ++ t :: post)
  = PyStr.lower (PyStr.strip (tag_Value t)) /\
  auto_dns_mapping._dns_str (self (snd (synchronize_auto aws cfg_auto id)))
  = PyStr.lower (PyStr.strip (tag_Value t)) /\
  hello_world._dns_str (self (snd (synchronize_hello aws cfg_hello id)))
  = PyStr.lower (PyStr.strip (tag_Value t)).
Proof.
  intros Hf Ht Hpre Hkey.
  assert (Hfirst : first_dns_tag (pre ++ t :: post) t)
    by (exists pre, post; auto).
  rewrite (dns_str_auto aws cfg_auto id inst _ Hf Ht).
  rewrite (dns_str_hello aws cfg_hello id inst _ Hf Ht).
  rewrite (next_dns_value_first _ _ Hfirst). auto.
Qed.

Lemma C10_witness :
  next_dns_value twice_tagged = "web1" /\
  auto_dns_mapping._dns_str
    (self (snd (synchronize_auto
                  (example_aws (mk_instance "running" None (Some twice_tagged))
                     [])
                  example_cfg_auto "i-0abc"))) = "web1" /\
  hello_world._dns_str
    (self (snd (synchronize_hello
                  (example_aws (mk_instance "running" None (Some twice_tagged))
                     [])
                  example_cfg_hello "i-0abc"))) = "web1".
Proof.
  apply (C10_first_dns_tag_wins
           (example_aws (mk_instance "running" None (Some twice_tagged)) [])
           example_cfg_auto example_cfg_hello "i-0abc"
           (mk_instance "running" None (Some twice_tagged))
           [mk_tag "Name" "web"] [mk_tag "dns" "other"]
           (mk_tag " DNS " " Web1 ") eq_refl eq_refl).
  - repeat constructor.
  - reflexivity.
Defined.

(** * Further properties of the code *)

(** ** Exceptions stop at the methods *)

Lemma try_except_returns {S A : Type} (body : M S A) (handler : exn -> M S A) :
  (forall e s, exists a s', handler e s = (Ok a, s')) ->
  forall s, exists a s', try_except body handler s = (Ok a, s').
Proof.
  intros Hh s. unfold try_except.
  destruct (body s) as [[a | e] s']; [eauto | apply Hh].
Qed.

Lemma print_then_false_returns {O : Type} (p : exn -> printed) :
  forall e (s : state O), exists a s',
    bind (print (p e)) (fun _ => ret false) s = (Ok a, s').
Proof. intros e s. cbv [bind print emit modify ret]. eauto. Qed.

(** X1.  None of [set_dns], [_delete_route53_record_set] and
    [_create_route53_record_set] lets an exception out, in either variant
    and from any object state: each returns a boolean. *)
Theorem X1_methods_never_raise
    (aws : AWS) (cfg_auto : auto_dns_mapping.config)
    (cfg_hello : hello_world.config)
    (s_auto : state auto_dns_mapping.IpToDNSMapper)
    (s_hello : state hello_world.IpToDNSMapper) :
  (exists b s', auto_dns_mapping.set_dns aws cfg_auto s_auto = (Ok b, s')) /\
  (exists b s',
      auto_dns_mapping._delete_route53_record_set aws cfg_auto s_auto
      = (Ok b, s')) /\
  (exists b s',
      auto_dns_mapping._create_route53_record_set aws cfg_auto s_auto
      = (Ok b, s')) /\
  (exists b s', hello_world.set_dns aws cfg_hello s_hello = (Ok b, s')) /\
  (exists b s',
      hello_world._delete_route53_record_set aws cfg_hello s_hello
      = (Ok b, s')) /\
  (exists b s',
      hello_world._create_route53_record_set aws cfg_hello s_hello
      = (Ok b, s')).
Proof.
  repeat split; apply try_except_returns; apply print_then_false_returns.
Qed.

(** X2.  When the instance cannot be fetched (the describe call raises, or
    it answers with no reservation or no instance), [set_dns] returns
    [False]; the describe call is the only request sent and the one line
    printed carries the exception. *)
Theorem X2_lookup_failure_is_reported
    (aws : AWS) (cfg_auto : auto_dns_mapping.config)
    (cfg_hello : hello_world.config) (id : string) (e : exn) :
  fetched aws id = Raise e ->
  (fst (synchronize_auto aws cfg_auto id) = Ok false /\
   trace_of (synchronize_auto aws cfg_auto id)
   = [Call (describe_instances [id]);
      Print (print_error "Error in set_dns: " e)]) /\
  (fst (synchronize_hello aws cfg_hello id) = Ok false /\
   trace_of (synchronize_hello aws cfg_hello id)
   = [Call (describe_instances [id]);
      Print (print_error "Error in set_dns: " e)]).
Proof.
  unfold fetched. intros Hf. exec.
  destruct (ec2_describe_instances aws [id]) as [resp | e1]; exec.
  - destruct (index0 (Reservations resp)) as [r | e2]; exec.
    + destruct (index0 (Instances r)) as [i | e3]; [discriminate |].
      injection Hf as ->. exec. auto.
    + injection Hf as ->. auto.
  - injection Hf as ->. auto.
Qed.

Lemma X2_witness :
  fetched unreachable_ec2 "i-0abc"
  = Raise (ClientError "InvalidInstanceID.NotFound") /\
  (fst (synchronize_auto unreachable_ec2 example_cfg_auto "i-0abc") = Ok false
   /\ trace_of (synchronize_auto unreachable_ec2 example_cfg_auto "i-0abc")
      = [Call (describe_instances ["i-0abc"]);
         Print (print_error "Error in set_dns: "
                  (ClientError "InvalidInstanceID.NotFound"))]) /\
  (fst (synchronize_hello unreachable_ec2 example_cfg_hello "i-0abc")
   = Ok false
   /\ trace_of (synchronize_hello unreachable_ec2 example_cfg_hello "i-0abc")
      = [Call (describe_instances ["i-0abc"]);
         Print (print_error "Error in set_dns: "
                  (ClientError "InvalidInstanceID.NotFound"))]).
Proof.
  split; [reflexivity |].
  apply (X2_lookup_failure_is_reported unreachable_ec2 example_cfg_auto
           example_cfg_hello "i-0abc"
           (ClientError "InvalidInstanceID.NotFound") eq_refl).
Defined.

Ltac protocol_leaf :=
  unfold follows_protocol;
  first [ left; reflexivity
        | right; left; eexists; reflexivity
        | right; right; left; eexists; reflexivity
        | right; right; right; eexists; eexists; reflexivity ].

(** X3.  The requests of an invocation follow one order: the describe call
    for the given instance id first, then at most one list query (type A,
    MaxItems '1') and at most one change, the change last; every Route 53
    request names the configured hosted zone. *)
Theorem X3_calls_follow_protocol
    (aws : AWS) (cfg_auto : auto_dns_mapping.config)
    (cfg_hello : hello_world.config) (id : string) :
  follows_protocol (Some (auto_dns_mapping.ROUTE53_ZONE_ID cfg_auto)) id
    (api_calls (trace_of (synchronize_auto aws cfg_auto id))) /\
  follows_protocol (hello_world.ROUTE53_ZONE_ID cfg_hello) id
    (api_calls (trace_of (synchronize_hello aws cfg_hello id))).
Proof.
  split; exec; repeat (split_match; exec); protocol_leaf.
Qed.

Ltac clash :=
  match goal with
  | H1 : _ = Raise _, H2 : _ = Ok _ |- _ =>
      let Hx := fresh in
      pose proof (eq_trans (eq_sym H1) H2) as Hx; discriminate Hx
  end.

(** X4.  [set_dns] returns [True] exactly when it submitted one change batch
    and Route 53 accepted it. *)
Theorem X4_success_iff_change_accepted
    (aws : AWS) (cfg_auto : auto_dns_mapping.config)
    (cfg_hello : hello_world.config) (id : string) :
  (fst (synchronize_auto aws cfg_auto id) = Ok true <->
   exists b r,
     dns_mutations (trace_of (synchronize_auto aws cfg_auto id)) = [b] /\
     route53_change_resource_record_sets aws
       (Some (auto_dns_mapping.ROUTE53_ZONE_ID cfg_auto)) b = Ok r) /\
  (fst (synchronize_hello aws cfg_hello id) = Ok true <->
   exists b r,
     dns_mutations (trace_of (synchronize_hello aws cfg_hello id)) = [b] /\
     route53_change_resource_record_sets aws
       (hello_world.ROUTE53_ZONE_ID cfg_hello) b = Ok r).
Proof.
  split; exec; repeat (split_match; exec);
    (split;
     [ intros H;
       first [ discriminate H
             | eexists; eexists; split; [reflexivity | eassumption] ]
     | intros (b & r & Hm & Hr);
       first [ reflexivity | discriminate Hm
             | injection Hm as Hb; subst b; clash ] ]).
Qed.

(** X5.  For a running instance with a DNS Name Tag that is not blank, the
    one change submitted is an UPSERT of the instance's derived name whose
    value is the public address, or the empty string when the snapshot has
    no 'PublicIpAddress'. *)
Theorem X5_running_publishes_public_address
    (aws : AWS) (cfg_auto : auto_dns_mapping.config)
    (cfg_hello : hello_world.config) (id : string) (inst : instance) :
  fetched aws id = Ok inst ->
  State_Name inst = "running" ->
  next_dns_value (tag_set inst) <> "" ->
  changes_submitted (trace_of (synchronize_auto aws cfg_auto id))
  = [ {| Action := "UPSERT";
         ResourceRecordSet :=
           {| rrs_Name :=
                "autodns-" ++ next_dns_value (tag_set inst) ++ "."
                ++ auto_dns_mapping.DOMAIN_NAME cfg_auto;
              rrs_ResourceRecords :=
                [ {| rr_Value := match PublicIpAddress inst with
                                 | Some address => address
                                 | None => ""
                                 end |} ];
              rrs_TTL := 300;
              rrs_Type := "A" |} |} ] /\
  changes_submitted (trace_of (synchronize_hello aws cfg_hello id))
  = [ {| Action := "UPSERT";
         ResourceRecordSet :=
           {| rrs_Name :=
                next_dns_value (tag_set inst) ++ "."
                ++ PyStr.format (hello_world.DOMAIN_NAME cfg_hello);
              rrs_ResourceRecords :=
                [ {| rr_Value := match PublicIpAddress inst with
                                 | Some address => address
                                 | None => ""
                                 end |} ];
              rrs_TTL := 300;
              rrs_Type := "A" |} |} ].
Proof.
  intros Hf Hs Hn. split.
  - exact (running_upsert_auto aws cfg_auto id inst Hf Hs Hn).
  - exact (running_upsert_hello aws cfg_hello id inst Hf Hs).
Qed.

Lemma X5_witness :
  values_submitted
    (trace_of (synchronize_auto (example_aws no_address_instance [])
                 example_cfg_auto "i-0abc")) = [ [mk_rr ""] ] /\
  values_submitted
    (trace_of (synchronize_hello (example_aws no_address_instance [])
                 example_cfg_hello "i-0abc")) = [ [mk_rr ""] ].
Proof.
  destruct (X5_running_publishes_public_address
              (example_aws no_address_instance []) example_cfg_auto
              example_cfg_hello "i-0abc" no_address_instance
              eq_refl eq_refl) as [Ha Hh].
  - discriminate.
  - unfold values_submitted. rewrite Ha, Hh. split; reflexivity.
Defined.

Lemma listed_first_raise aws zone name e :
  listed_first aws zone name = Raise e ->
  route53_list_resource_record_sets aws zone name "A" "1" = Raise e \/
  exists resp,
    route53_list_resource_record_sets aws zone name "A" "1" = Ok resp /\
    ResourceRecordSets resp = [] /\ e = IndexError.
Proof.
  unfold listed_first, index0. intros H.
  destruct (route53_list_resource_record_sets aws zone name "A" "1")
    as [resp |]; [right | left; injection H as ->; reflexivity].
  destruct (ResourceRecordSets resp) eqn:E; [| discriminate].
  injection H as <-. eauto.
Qed.

Lemma delete_lookup_fails_auto aws cfg s e :
  listed_first aws (Some (auto_dns_mapping.ROUTE53_ZONE_ID cfg))
    (auto_dns_mapping.record_name cfg (self s)) = Raise e ->
  auto_dns_mapping._delete_route53_record_set aws cfg s
  = (Ok false,
     mk_state (self s)
       (out s ++
        [Call (list_resource_record_sets
                 (Some (auto_dns_mapping.ROUTE53_ZONE_ID cfg))
                 (auto_dns_mapping.record_name cfg (self s)) "A" "1");
         Print (print_error "Error deleting record: " e)])%list).
Proof.
  intros H.
  destruct (listed_first_raise _ _ _ _ H) as [E | (resp & E1 & E2 & ->)];
    exec.
  - rewrite E. exec. rewrite <- app_assoc. reflexivity.
  - rewrite E1. exec. rewrite E2. exec. rewrite <- app_assoc. reflexivity.
Qed.

Lemma delete_lookup_fails_hello aws cfg s e :
  listed_first aws (hello_world.ROUTE53_ZONE_ID cfg)
    (hello_world.record_name cfg (self s)) = Raise e ->
  hello_world._delete_route53_record_set aws cfg s
  = (Ok false,
     mk_state (self s)
       (out s ++
        [Call (list_resource_record_sets
                 (hello_world.ROUTE53_ZONE_ID cfg)
                 (hello_world.record_name cfg (self s)) "A" "1");
         Print (print_error "Error deleting record: " e)])%list).
Proof.
  intros H.
  destruct (listed_first_raise _ _ _ _ H) as [E | (resp & E1 & E2 & ->)];
    exec.
  - rewrite E. exec. rewrite <- app_assoc. reflexivity.
  - rewrite E1. exec. rewrite E2. exec. rewrite <- app_assoc. reflexivity.
Qed.

(** X6.  When the list query of a deletion raises, or answers with no
    record set at all, the method returns [False]: it has sent the list
    query, printed the exception and submitted no change. *)
Theorem X6_delete_without_record_fails_quietly
    (aws : AWS) (cfg_auto : auto_dns_mapping.config)
    (cfg_hello : hello_world.config)
    (s_auto : state auto_dns_mapping.IpToDNSMapper)
    (s_hello : state hello_world.IpToDNSMapper) (e_auto e_hello : exn) :
  listed_first aws (Some (auto_dns_mapping.ROUTE53_ZONE_ID cfg_auto))
    (auto_dns_mapping.record_name cfg_auto (self s_auto)) = Raise e_auto ->
  listed_first aws (hello_world.ROUTE53_ZONE_ID cfg_hello)
    (hello_world.record_name cfg_hello (self s_hello)) = Raise e_hello ->
  auto_dns_mapping._delete_route53_record_set aws cfg_auto s_auto
  = (Ok false,
     mk_state (self s_auto)
       (out s_auto ++
        [Call (list_resource_record_sets
                 (Some (auto_dns_mapping.ROUTE53_ZONE_ID cfg_auto))
                 (auto_dns_mapping.record_name cfg_auto (self s_auto))
                 "A" "1");
         Print (print_error "Error deleting record: " e_auto)])%list) /\
  hello_world._delete_route53_record_set aws cfg_hello s_hello
  = (Ok false,
     mk_state (self s_hello)
       (out s_hello ++
        [Call (list_resource_record_sets
                 (hello_world.ROUTE53_ZONE_ID cfg_hello)
                 (hello_world.record_name cfg_hello (self s_hello))
                 "A" "1");
         Print (print_error "Error deleting record: " e_hello)])%list).
Proof.
  intros Ha Hh. split.
  - exact (delete_lookup_fails_auto aws cfg_auto s_auto e_auto Ha).
  - exact (delete_lookup_fails_hello aws cfg_hello s_hello e_hello Hh).
Qed.

Lemma X6_witness :
  listed_first (example_aws scenario_a_instance []) (Some "Z123")
    "autodns-web1.example.com" = Raise IndexError /\
  fst (auto_dns_mapping._delete_route53_record_set
         (example_aws scenario_a_instance []) example_cfg_auto auto_web1)
  = Ok false /\
  fst (hello_world._delete_route53_record_set
         (example_aws scenario_a_instance []) example_cfg_hello hello_web1)
  = Ok false.
Proof.
  destruct (X6_delete_without_record_fails_quietly
              (example_aws scenario_a_instance []) example_cfg_auto
              example_cfg_hello auto_web1 hello_web1 IndexError IndexError
              eq_refl eq_refl) as [Ha Hh].
  rewrite Ha, Hh. repeat split.
Defined.

Lemma delete_incomplete_auto aws cfg s d :
  listed_first aws (Some (auto_dns_mapping.ROUTE53_ZONE_ID cfg))
    (auto_dns_mapping.record_name cfg (self s)) = Ok d ->
  desc_Name d = auto_dns_mapping.record_name cfg (self s) ++ "." ->
  lacks_delete_fields d ->
  fst (auto_dns_mapping._delete_route53_record_set aws cfg s) = Ok false /\
  dns_mutations
    (out (snd (auto_dns_mapping._delete_route53_record_set aws cfg s)))
  = dns_mutations (out s).
Proof.
  intros Hl Hn Hd.
  destruct (listed_first_ok _ _ _ _ Hl) as (resp & rest & E1 & E2).
  exec. rewrite E1. exec. rewrite E2. exec.
  rewrite Hn, String.eqb_refl. exec.
  destruct Hd as [Hd | [Hd | Hd]].
  - rewrite Hd. exec. rewrite !dns_mutations_app. cbn.
    rewrite !app_nil_r. auto.
  - rewrite Hd. exec. rewrite !dns_mutations_app. cbn.
    rewrite !app_nil_r. auto.
  - rewrite Hd. repeat (split_match; exec);
      rewrite !dns_mutations_app; cbn; rewrite !app_nil_r; auto.
Qed.

Lemma delete_incomplete_hello aws cfg s d :
  listed_first aws (hello_world.ROUTE53_ZONE_ID cfg)
    (hello_world.record_name cfg (self s)) = Ok d ->
  desc_Name d = hello_world.record_name cfg (self s) ++ "." ->
  lacks_delete_fields d ->
  fst (hello_world._delete_route53_record_set aws cfg s) = Ok false /\
  dns_mutations
    (out (snd (hello_world._delete_route53_record_set aws cfg s)))
  = dns_mutations (out s).
Proof.
  intros Hl Hn Hd.
  destruct (listed_first_ok _ _ _ _ Hl) as (resp & rest & E1 & E2).
  exec. rewrite E1. exec. rewrite E2. exec.
  rewrite Hn, String.eqb_refl. exec.
  destruct Hd as [Hd | [Hd | Hd]].
  - rewrite Hd. exec. rewrite !dns_mutations_app. cbn.
    rewrite !app_nil_r. auto.
  - rewrite Hd. exec. rewrite !dns_mutations_app. cbn.
    rewrite !app_nil_r. auto.
  - rewrite Hd. repeat (split_match; exec);
      rewrite !dns_mutations_app; cbn; rewrite !app_nil_r; auto.
Qed.

(** X7.  When the record set found under the target name has no
    'ResourceRecords', an empty 'ResourceRecords' or no 'TTL' (an alias
    record set), the deletion returns [False] and submits no change. *)
Theorem X7_incomplete_record_is_not_deleted
    (aws : AWS) (cfg_auto : auto_dns_mapping.config)
    (cfg_hello : hello_world.config)
    (s_auto : state auto_dns_mapping.IpToDNSMapper)
    (s_hello : state hello_world.IpToDNSMapper)
    (d_auto d_hello : record_desc) :
  listed_first aws (Some (auto_dns_mapping.ROUTE53_ZONE_ID cfg_auto))
    (auto_dns_mapping.record_name cfg_auto (self s_auto)) = Ok d_auto ->
  desc_Name d_auto
  = auto_dns_mapping.record_name cfg_auto (self s_auto) ++ "." ->
  lacks_delete_fields d_auto ->
  listed_first aws (hello_world.ROUTE53_ZONE_ID cfg_hello)
    (hello_world.record_name cfg_hello (self s_hello)) = Ok d_hello ->
  desc_Name d_hello
  = hello_world.record_name cfg_hello (self s_hello) ++ "." ->
  lacks_delete_fields d_hello ->
  (fst (auto_dns_mapping._delete_route53_record_set aws cfg_auto s_auto)
   = Ok false /\
   dns_mutations
     (out (snd (auto_dns_mapping._delete_route53_record_set aws cfg_auto
                  s_auto)))
   = dns_mutations (out s_auto)) /\
  (fst (hello_world._delete_route53_record_set aws cfg_hello s_hello)
   = Ok false /\
   dns_mutations
     (out (snd (hello_world._delete_route53_record_set aws cfg_hello
                  s_hello)))
   = dns_mutations (out s_hello)).
Proof.
  intros Ha Hna Hda Hh Hnh Hdh. split.
  - exact (delete_incomplete_auto aws cfg_auto s_auto d_auto Ha Hna Hda).
  - exact (delete_incomplete_hello aws cfg_hello s_hello d_hello Hh Hnh Hdh).
Qed.

Lemma X7_witness :
  lacks_delete_fields alias_auto_record /\
  lacks_delete_fields alias_hello_record /\
  (fst (auto_dns_mapping._delete_route53_record_set alias_zone
          example_cfg_auto auto_web1) = Ok false /\
   dns_mutations
     (out (snd (auto_dns_mapping._delete_route53_record_set alias_zone
                  example_cfg_auto auto_web1))) = []) /\
  (fst (hello_world._delete_route53_record_set alias_zone
          example_cfg_hello hello_web1) = Ok false /\
   dns_mutations
     (out (snd (hello_world._delete_route53_record_set alias_zone
                  example_cfg_hello hello_web1))) = []).
Proof.
  assert (Ha : lacks_delete_fields alias_auto_record) by (left; reflexivity).
  assert (Hh : lacks_delete_fields alias_hello_record) by (left; reflexivity).
  split; [exact Ha |]. split; [exact Hh |].
  apply (X7_incomplete_record_is_not_deleted alias_zone example_cfg_auto
           example_cfg_hello auto_web1 hello_web1 alias_auto_record
           alias_hello_record eq_refl eq_refl Ha eq_refl eq_refl Hh).
Defined.

Ltac name_checked :=
  match goal with
  | H : negb (String.eqb _ _) = false |- _ =>
      apply negb_false_iff in H; apply String.eqb_eq in H
  end.

(** X8.  Every change an invocation submits is for the name derived from the
    fetched instance's own DNS Name Tag: an UPSERT for that name, a DELETE
    for that name followed by a dot.  In the auto_dns_mapping variant the
    tag is never blank and the name carries the prefix. *)
Theorem X8_only_the_instance_name_is_touched
    (aws : AWS) (cfg_auto : auto_dns_mapping.config)
    (cfg_hello : hello_world.config) (id : string) :
  Forall
    (fun c =>
       exists inst,
         fetched aws id = Ok inst /\
         next_dns_value (tag_set inst) <> "" /\
         ((Action c = "UPSERT" /\
           rrs_Name (ResourceRecordSet c)
           = "autodns-" ++ next_dns_value (tag_set inst) ++ "."
             ++ auto_dns_mapping.DOMAIN_NAME cfg_auto) \/
          (Action c = "DELETE" /\
           rrs_Name (ResourceRecordSet c)
           = ("autodns-" ++ next_dns_value (tag_set inst) ++ "."
              ++ auto_dns_mapping.DOMAIN_NAME cfg_auto) ++ ".")))
    (changes_submitted (trace_of (synchronize_auto aws cfg_auto id))) /\
  Forall
    (fun c =>
       exists inst,
         fetched aws id = Ok inst /\
         ((Action c = "UPSERT" /\
           rrs_Name (ResourceRecordSet c)
           = next_dns_value (tag_set inst) ++ "."
             ++ PyStr.format (hello_world.DOMAIN_NAME cfg_hello)) \/
          (Action c = "DELETE" /\
           rrs_Name (ResourceRecordSet c)
           = (next_dns_value (tag_set inst) ++ "."
              ++ PyStr.format (hello_world.DOMAIN_NAME cfg_hello)) ++ ".")))
    (changes_submitted (trace_of (synchronize_hello aws cfg_hello id))).
Proof.
  split.
  - exec.
    destruct (ec2_describe_instances aws [id]) as [resp |] eqn:Hd; exec;
      [| constructor].
    destruct (index0 (Reservations resp)) as [r |] eqn:Hr; exec;
      [| constructor].
    destruct (index0 (Instances r)) as [inst |] eqn:Hi; exec;
      [| constructor].
    assert (Hf : fetched aws id = Ok inst) by fetched_from Hd Hr Hi.
    destruct (Tags inst) as [tags |] eqn:Htags; exec; [| constructor].
    destruct (PyStr.truthy (next_dns_value tags)) eqn:Htr; exec;
      [| constructor].
    assert (Hn : next_dns_value (tag_set inst) <> "")
      by (unfold tag_set; rewrite Htags; apply truthy_true; exact Htr).
    repeat (split_match; exec); try name_checked;
      repeat constructor; exists inst;
      (split; [exact Hf |]); (split; [exact Hn |]);
      unfold tag_set; rewrite Htags;
      first [ left; split; reflexivity
            | right; split; [reflexivity | eassumption] ].
  - exec.
    destruct (ec2_describe_instances aws [id]) as [resp |] eqn:Hd; exec;
      [| constructor].
    destruct (index0 (Reservations resp)) as [r |] eqn:Hr; exec;
      [| constructor].
    destruct (index0 (Instances r)) as [inst |] eqn:Hi; exec;
      [| constructor].
    assert (Hf : fetched aws id = Ok inst) by fetched_from Hd Hr Hi.
    repeat (split_match; exec); try name_checked;
      repeat constructor; exists inst;
      (split; [exact Hf |]); unfold tag_set;
      first [ left; split; reflexivity
            | right; split; [reflexivity | eassumption] ].
Qed.

(** ** The handler and [set_dns] *)

(** X9.  For an event that carries detail.instance-id, when the variant's
    two clients can be constructed, [lambda_handler] prints the event, runs
    [set_dns] on a fresh object for that instance and returns the dictionary
    for its result: its trace is the printed event followed by the trace of
    that run. *)
Theorem X9_handler_reports_what_set_dns_did
    (aws : AWS) (cfg_auto : auto_dns_mapping.config)
    (cfg_hello : hello_world.config) (ev : event) (id : string) :
  instance_id_of ev = Ok id ->
  (boto3_client aws (Some (auto_dns_mapping.AWS_PRIMARY_REGION cfg_auto))
     "ec2" = None ->
   boto3_client aws (Some (auto_dns_mapping.AWS_PRIMARY_REGION cfg_auto))
     "route53" = None ->
   exists b,
     fst (synchronize_auto aws cfg_auto id) = Ok b /\
     auto_dns_mapping.lambda_handler aws cfg_auto ev []
     = (Ok (handler_dict b),
        Print (print_event ev)
          :: trace_of (synchronize_auto aws cfg_auto id))) /\
  (boto3_client aws None "ec2" = None ->
   boto3_client aws None "route53" = None ->
   exists b,
     fst (synchronize_hello aws cfg_hello id) = Ok b /\
     hello_world.lambda_handler aws cfg_hello ev []
     = (Ok (handler_dict b),
        Print (print_event ev)
          :: trace_of (synchronize_hello aws cfg_hello id))).
Proof.
  intros Hid. split; intros He Hr.
  - exact (handler_runs_auto aws cfg_auto ev id Hid He Hr).
  - exact (handler_runs_hello aws cfg_hello ev id Hid He Hr).
Qed.

Lemma X9_witness :
  instance_id_of example_event = Ok "i-0abc" /\
  auto_dns_mapping.lambda_handler no_default_region example_cfg_auto
    example_event []
  = (Ok success_result,
     Print (print_event example_event)
       :: trace_of (synchronize_auto no_default_region example_cfg_auto
                      "i-0abc")) /\
  snd (hello_world.lambda_handler (example_aws scenario_b_instance [])
         example_cfg_hello example_event [])
  = Print (print_event example_event)
      :: trace_of (synchronize_hello (example_aws scenario_b_instance [])
                     example_cfg_hello "i-0abc").
Proof.
  split; [reflexivity |].
  destruct (X9_handler_reports_what_set_dns_did no_default_region
              example_cfg_auto example_cfg_hello example_event "i-0abc"
              eq_refl) as [Ha _].
  destruct (X9_handler_reports_what_set_dns_did
              (example_aws scenario_b_instance [])
              example_cfg_auto example_cfg_hello example_event "i-0abc"
              eq_refl) as [_ Hh].
  destruct (Ha eq_refl eq_refl) as (ba & _ & Ea).
  destruct (Hh eq_refl eq_refl) as (bh & _ & Eh).
  rewrite Eh. split; reflexivity.
Defined.

Lemma handler_raise_auto aws cfg ev e :
  fst (auto_dns_mapping.lambda_handler aws cfg ev []) = Raise e ->
  snd (auto_dns_mapping.lambda_handler aws cfg ev [])
  = [Print (print_event ev)] /\
  (instance_id_of ev = Raise e \/
   boto3_client aws (Some (auto_dns_mapping.AWS_PRIMARY_REGION cfg)) "ec2"
   = Some e \/
   boto3_client aws (Some (auto_dns_mapping.AWS_PRIMARY_REGION cfg)) "route53"
   = Some e).
Proof.
  unfold auto_dns_mapping.lambda_handler, auto_dns_mapping.__init__,
    print_top, with_self, bind, lift, modify, ret.
  destruct ev as [[[[id |] |] |] |]; cbn;
    try (intros H; injection H as <-; auto).
  destruct (boto3_client aws _ "ec2") as [e1 |] eqn:E1; cbn.
  - intros H. injection H as <-. auto.
  - destruct (boto3_client aws _ "route53") as [e2 |] eqn:E2; cbn.
    + intros H. injection H as <-. auto.
    + match goal with |- context [auto_dns_mapping.set_dns aws cfg ?s] =>
        destruct (set_dns_auto_returns aws cfg s) as (b & s' & ->) end.
      cbn. discriminate.
Qed.

Lemma handler_raise_hello aws cfg ev e :
  fst (hello_world.lambda_handler aws cfg ev []) = Raise e ->
  snd (hello_world.lambda_handler aws cfg ev [])
  = [Print (print_event ev)] /\
  (instance_id_of ev = Raise e \/
   boto3_client aws None "ec2" = Some e \/
   boto3_client aws None "route53" = Some e).
Proof.
  unfold hello_world.lambda_handler, hello_world.__init__,
    print_top, with_self, bind, lift, modify, ret.
  destruct ev as [[[[id |] |] |] |]; cbn;
    try (intros H; injection H as <-; auto).
  destruct (boto3_client aws _ "ec2") as [e1 |] eqn:E1; cbn.
  - intros H. injection H as <-. auto.
  - destruct (boto3_client aws _ "route53") as [e2 |] eqn:E2; cbn.
    + intros H. injection H as <-. auto.
    + match goal with |- context [hello_world.set_dns aws cfg ?s] =>
        destruct (set_dns_hello_returns aws cfg s) as (b & s' & ->) end.
      cbn. discriminate.
Qed.

(** X10.  Whenever [lambda_handler] of a variant raises, nothing but the
    event has been printed and no request has been sent.  The exception
    comes from reading event['detail']['instance-id'] (KeyError 'detail',
    KeyError 'instance-id', or TypeError when the event or its detail is not
    a dictionary) or from constructing one of that variant's two
    clients. *)
Theorem X10_handler_raises_before_any_call
    (aws : AWS) (cfg_auto : auto_dns_mapping.config)
    (cfg_hello : hello_world.config) (ev : event) (e : exn) :
  (fst (auto_dns_mapping.lambda_handler aws cfg_auto ev []) = Raise e ->
   snd (auto_dns_mapping.lambda_handler aws cfg_auto ev [])
   = [Print (print_event ev)] /\
   ((instance_id_of ev = Raise e /\
     (e = KeyError "detail" \/ e = KeyError "instance-id" \/ e = TypeError))
    \/
    boto3_client aws (Some (auto_dns_mapping.AWS_PRIMARY_REGION cfg_auto))
      "ec2" = Some e \/
    boto3_client aws (Some (auto_dns_mapping.AWS_PRIMARY_REGION cfg_auto))
      "route53" = Some e)) /\
  (fst (hello_world.lambda_handler aws cfg_hello ev []) = Raise e ->
   snd (hello_world.lambda_handler aws cfg_hello ev [])
   = [Print (print_event ev)] /\
   ((instance_id_of ev = Raise e /\
     (e = KeyError "detail" \/ e = KeyError "instance-id" \/ e = TypeError))
    \/
    boto3_client aws None "ec2" = Some e \/
    boto3_client aws None "route53" = Some e)).
Proof.
  split; intros H.
  - destruct (handler_raise_auto aws cfg_auto ev e H) as [Ht [Hi | Hc]].
    + split; [exact Ht |]. left.
      split; [exact Hi | exact (instance_id_of_raise ev e Hi)].
    + split; [exact Ht |]. right. exact Hc.
  - destruct (handler_raise_hello aws cfg_hello ev e H) as [Ht [Hi | Hc]].
    + split; [exact Ht |]. left.
      split; [exact Hi | exact (instance_id_of_raise ev e Hi)].
    + split; [exact Ht |]. right. exact Hc.
Qed.

Lemma X10_witness :
  instance_id_of null_detail_event = Raise TypeError /\
  api_calls
    (snd (auto_dns_mapping.lambda_handler (example_aws scenario_a_instance [])
            example_cfg_auto null_detail_event [])) = [] /\
  fst (auto_dns_mapping.lambda_handler no_default_region example_cfg_auto
         example_event []) = Ok success_result /\
  api_calls
    (snd (hello_world.lambda_handler no_default_region example_cfg_hello
            example_event [])) = [].
Proof.
  split; [reflexivity |].
  destruct (X10_handler_raises_before_any_call
              (example_aws scenario_a_instance []) example_cfg_auto
              example_cfg_hello null_detail_event TypeError) as [Ha _].
  destruct (X10_handler_raises_before_any_call no_default_region
              example_cfg_auto example_cfg_hello example_event
              (ClientError "NoRegionError")) as [_ Hh].
  destruct (Ha eq_refl) as [Ea _]. destruct (Hh eq_refl) as [Eh _].
  rewrite Ea, Eh. repeat split.
Defined.

(** ** What is printed and what is submitted *)

(** X11.  Every run of [set_dns] prints exactly one line, and its result is
    [True] exactly when that line reports the response of an accepted
    change; a [False] is always accompanied by one message or error line. *)
Theorem X11_one_line_tells_the_outcome
    (aws : AWS) (cfg_auto : auto_dns_mapping.config)
    (cfg_hello : hello_world.config) (id : string) :
  (exists p,
      printed_lines (trace_of (synchronize_auto aws cfg_auto id)) = [p] /\
      fst (synchronize_auto aws cfg_auto id) = Ok (reports_change p)) /\
  (exists p,
      printed_lines (trace_of (synchronize_hello aws cfg_hello id)) = [p] /\
      fst (synchronize_hello aws cfg_hello id) = Ok (reports_change p)).
Proof.
  split; exec; repeat (split_match; exec);
    eexists; split; reflexivity.
Qed.

Ltac shape_leaf :=
  unfold well_shaped_batch; eexists; split; [reflexivity |];
  split; [reflexivity |];
  first [ left; repeat split; reflexivity
        | right; split; reflexivity ].

(** X12.  Every batch submitted holds one change with one resource value;
    an UPSERT has TTL 300, type A and the comment naming the instance, a
    DELETE has no comment. *)
Theorem X12_batches_are_well_shaped
    (aws : AWS) (cfg_auto : auto_dns_mapping.config)
    (cfg_hello : hello_world.config) (id : string) :
  Forall (well_shaped_batch id)
    (dns_mutations (trace_of (synchronize_auto aws cfg_auto id))) /\
  Forall (well_shaped_batch id)
    (dns_mutations (trace_of (synchronize_hello aws cfg_hello id))).
Proof.
  split; exec; repeat (split_match; exec);
    repeat (constructor; [shape_leaf |]); constructor.
Qed.

(** X13.  In the auto_dns_mapping variant an instance without a usable DNS
    Name Tag leaves the object as constructed and sends only the describe
    call; a snapshot without the 'Tags' key is reported as the KeyError that
    [set_dns] caught, any other as 'No DNS tag found for the instance.'. *)
Theorem X13_missing_tags_key_is_an_error
    (aws : AWS) (cfg : auto_dns_mapping.config) (id : string)
    (inst : instance) :
  fetched aws id = Ok inst ->
  next_dns_value (tag_set inst) = "" ->
  synchronize_auto aws cfg id
  = (Ok false,
     mk_state
       (auto_dns_mapping.mk_mapper id "" "" "autodns-")
       [Call (describe_instances [id]);
        Print (match Tags inst with
               | None => print_error "Error in set_dns: " (KeyError "Tags")
               | Some _ => print_text "No DNS tag found for the instance."
               end)]).
Proof.
  intros Hf Hn. unfold tag_set in Hn. fetch Hf.
  destruct (Tags inst) as [tags |]; exec.
  - cbn in Hn. rewrite Hn. reflexivity.
  - reflexivity.
Qed.

Lemma X13_witness :
  printed_lines
    (trace_of (synchronize_auto
                 (example_aws (mk_instance "running" None None) [])
                 example_cfg_auto "i-0abc"))
  = [print_error "Error in set_dns: " (KeyError "Tags")] /\
  printed_lines
    (trace_of (synchronize_auto (example_aws untagged_instance [])
                 example_cfg_auto "i-0abc"))
  = [print_text "No DNS tag found for the instance."].
Proof.
  rewrite (X13_missing_tags_key_is_an_error
             (example_aws (mk_instance "running" None None) [])
             example_cfg_auto "i-0abc" (mk_instance "running" None None)
             eq_refl eq_refl).
  rewrite (X13_missing_tags_key_is_an_error
             (example_aws untagged_instance [])
             example_cfg_auto "i-0abc" untagged_instance eq_refl eq_refl).
  split; reflexivity.
Defined.

(** X14.  For a terminated instance with a DNS Name Tag that is not blank,
    the second request is the list query for the derived name, type A,
    MaxItems '1', and no change other than a DELETE is submitted. *)
Theorem X14_terminated_queries_then_only_deletes
    (aws : AWS) (cfg_auto : auto_dns_mapping.config)
    (cfg_hello : hello_world.config) (id : string) (inst : instance) :
  fetched aws id = Ok inst ->
  State_Name inst = "terminated" ->
  next_dns_value (tag_set inst) <> "" ->
  (exists rest,
      api_calls (trace_of (synchronize_auto aws cfg_auto id))
      = describe_instances [id]
        :: list_resource_record_sets
             (Some (auto_dns_mapping.ROUTE53_ZONE_ID cfg_auto))
             ("autodns-" ++ next_dns_value (tag_set inst) ++ "."
              ++ auto_dns_mapping.DOMAIN_NAME cfg_auto) "A" "1"
        :: rest) /\
  Forall (fun c => Action c = "DELETE")
    (changes_submitted (trace_of (synchronize_auto aws cfg_auto id))) /\
  (exists rest,
      api_calls (trace_of (synchronize_hello aws cfg_hello id))
      = describe_instances [id]
        :: list_resource_record_sets
             (hello_world.ROUTE53_ZONE_ID cfg_hello)
             (next_dns_value (tag_set inst) ++ "."
              ++ PyStr.format (hello_world.DOMAIN_NAME cfg_hello)) "A" "1"
        :: rest) /\
  Forall (fun c => Action c = "DELETE")
    (changes_submitted (trace_of (synchronize_hello aws cfg_hello id))).
Proof.
  intros Hf Hs Hn.
  destruct (tag_set_nonblank inst Hn) as (tags & Htags & Htruthy).
  unfold tag_set. rewrite Htags. cbn [dict_get].
  assert (Ha :
    (exists rest,
      api_calls (trace_of (synchronize_auto aws cfg_auto id))
      = describe_instances [id]
        :: list_resource_record_sets
             (Some (auto_dns_mapping.ROUTE53_ZONE_ID cfg_auto))
             ("autodns-" ++ next_dns_value tags ++ "."
              ++ auto_dns_mapping.DOMAIN_NAME cfg_auto) "A" "1"
        :: rest) /\
    Forall (fun c => Action c = "DELETE")
      (changes_submitted (trace_of (synchronize_auto aws cfg_auto id)))).
  { fetch Hf. rewrite Htags. exec. rewrite Htruthy, Hs. exec.
    repeat (split_match; exec);
      (split; [eexists; reflexivity | repeat constructor]). }
  assert (Hh :
    (exists rest,
      api_calls (trace_of (synchronize_hello aws cfg_hello id))
      = describe_instances [id]
        :: list_resource_record_sets
             (hello_world.ROUTE53_ZONE_ID cfg_hello)
             (next_dns_value tags ++ "."
              ++ PyStr.format (hello_world.DOMAIN_NAME cfg_hello)) "A" "1"
        :: rest) /\
    Forall (fun c => Action c = "DELETE")
      (changes_submitted (trace_of (synchronize_hello aws cfg_hello id)))).
  { fetch Hf. rewrite Htags, Hs. exec.
    repeat (split_match; exec);
      (split; [eexists; reflexivity | repeat constructor]). }
  destruct Ha as [Ha1 Ha2], Hh as [Hh1 Hh2]. auto.
Qed.

Lemma X14_witness :
  Forall (fun c => Action c = "DELETE")
    (changes_submitted
       (trace_of (synchronize_auto
                    (example_aws
                       (mk_instance "terminated" None
                          (Some [mk_tag "dns" "web1"])) [auto_record])
                    example_cfg_auto "i-0abc"))) /\
  Forall (fun c => Action c = "DELETE")
    (changes_submitted
       (trace_of (synchronize_hello
                    (example_aws
                       (mk_instance "terminated" None
                          (Some [mk_tag "dns" "web1"])) [auto_record])
                    example_cfg_hello "i-0abc"))).
Proof.
  destruct (X14_terminated_queries_then_only_deletes
              (example_aws
                 (mk_instance "terminated" None (Some [mk_tag "dns" "web1"]))
                 [auto_record])
              example_cfg_auto example_cfg_hello "i-0abc"
              (mk_instance "terminated" None (Some [mk_tag "dns" "web1"]))
              eq_refl eq_refl) as (_ & Ha & _ & Hh).
  - discriminate.
  - split; assumption.
Defined.

(** ** The DNS Name Tag is in normal form *)

Lemma lower_char_idem (c : ascii) :
  PyStr.lower_char (PyStr.lower_char c) = PyStr.lower_char c.
Proof. destruct c as [[] [] [] [] [] [] [] []]; reflexivity. Qed.

Lemma isspace_lower_char (c : ascii) :
  PyStr.isspace (PyStr.lower_char c) = PyStr.isspace c.
Proof. destruct c as [[] [] [] [] [] [] [] []]; reflexivity. Qed.

Lemma lower_idem (s : string) : PyStr.lower (PyStr.lower s) = PyStr.lower s.
Proof.
  induction s as [| c s IH]; simpl; [reflexivity |].
  rewrite lower_char_idem, IH. reflexivity.
Qed.

Lemma lower_lstrip (s : string) :
  PyStr.lower (PyStr.lstrip s) = PyStr.lstrip (PyStr.lower s).
Proof.
  induction s as [| c s IH]; simpl; [reflexivity |].
  rewrite isspace_lower_char. destruct (PyStr.isspace c); [exact IH |].
  reflexivity.
Qed.

Lemma lower_rstrip (s : string) :
  PyStr.lower (PyStr.rstrip s) = PyStr.rstrip (PyStr.lower s).
Proof.
  induction s as [| c s IH]; simpl; [reflexivity |].
  rewrite <- IH, isspace_lower_char.
  destruct (PyStr.rstrip s); simpl; [| reflexivity].
  destruct (PyStr.isspace c); reflexivity.
Qed.

Lemma rstrip_idem (s : string) :
  PyStr.rstrip (PyStr.rstrip s) = PyStr.rstrip s.
Proof.
  induction s as [| c s IH]; simpl; [reflexivity |].
  destruct (PyStr.rstrip s) as [| c' r] eqn:E.
  - destruct (PyStr.isspace c) eqn:Ec; simpl; [reflexivity |].
    rewrite Ec. reflexivity.
  - simpl in IH |- *. rewrite IH. reflexivity.
Qed.

Lemma lstrip_starts_clean (s : string) : starts_clean (PyStr.lstrip s).
Proof.
  induction s as [| c s IH]; simpl; [exact I |].
  destruct (PyStr.isspace c) eqn:E; [exact IH | exact E].
Qed.

Lemma rstrip_starts_clean (s : string) :
  starts_clean s -> starts_clean (PyStr.rstrip s).
Proof.
  destruct s as [| c s]; simpl; [auto |]. intros Hc.
  destruct (PyStr.rstrip s); [rewrite Hc |]; exact Hc.
Qed.

Lemma lstrip_clean (s : string) : starts_clean s -> PyStr.lstrip s = s.
Proof. destruct s as [| c s]; simpl; [auto |]. intros ->. reflexivity. Qed.

Lemma strip_idem (s : string) : PyStr.strip (PyStr.strip s) = PyStr.strip s.
Proof.
  unfold PyStr.strip.
  rewrite (lstrip_clean (PyStr.rstrip (PyStr.lstrip s)))
    by (apply rstrip_starts_clean, lstrip_starts_clean).
  apply rstrip_idem.
Qed.

Lemma lower_strip (s : string) :
  PyStr.lower (PyStr.strip s) = PyStr.strip (PyStr.lower s).
Proof. unfold PyStr.strip. rewrite lower_rstrip, lower_lstrip. reflexivity. Qed.

(** X15.  The DNS Name Tag derived from any tag list is in normal form:
    lower-casing it or trimming it again changes nothing. *)
Theorem X15_dns_name_tag_is_normalised (tags : list tag) :
  PyStr.lower (next_dns_value tags) = next_dns_value tags /\
  PyStr.strip (next_dns_value tags) = next_dns_value tags.
Proof.
  induction tags as [| t rest IH]; simpl; [auto |].
  destruct (key_is_dns t); [| exact IH].
  split.
  - apply lower_idem.
  - rewrite lower_strip. apply strip_idem.
Qed.
